(** * CNN.py: regression model and its train / validate / test loops

    A shallow embedding of [Predict (Regression)/CNN.py].  Python
    exceptions are an error type, the tensor and float arithmetic of the
    framework is an interface the development is parametric in, and the
    objects the loops mutate (the model, the optimizer, the files written)
    are threaded as explicit state. *)

From stdpp Require Import gmap strings list pretty.
From Stdlib Require Import QArith Qround Qabs Ascii DecimalString.

Open Scope nat_scope.

(** ** Python exceptions and results *)

Inductive exn : Type :=
| ValueError (msg : string)
| RuntimeError (msg : string)
| KeyError (key : string)
| AttributeError (name : string)
| FileNotFoundError (filename : string)
| ZeroDivisionError.

Inductive Result (A : Type) : Type :=
| Ok (a : A)
| Raise (e : exn).
Arguments Ok {A} a.
Arguments Raise {A} e.

#[global] Instance Result_ret : MRet Result := fun A a => Ok a.
#[global] Instance Result_bind : MBind Result := fun A B f r =>
  match r with
  | Ok a => f a
  | Raise e => Raise e
  end.

(** A state-and-exception monad: the state is what the Python code mutates
    in place, and it survives an exception. *)
Definition M (S A : Type) : Type := S → Result A * S.

#[global] Instance M_ret {S} : MRet (M S) := fun A a s => (Ok a, s).
#[global] Instance M_bind {S} : MBind (M S) := fun A B k m s =>
  match m s with
  | (Ok a, s') => k a s'
  | (Raise e, s') => (Raise e, s')
  end.
Definition lift {S A} (r : Result A) : M S A := fun s => (r, s).
Definition get {S} : M S S := fun s => (Ok s, s).
Definition put {S} (s : S) : M S unit := fun _ => (Ok tt, s).

(** [for x in xs: body], with the loop-carried locals in [acc]. *)
Fixpoint for_each {S X A} (body : A → X → M S A) (xs : list X) (acc : A) : M S A :=
  match xs with
  | [] => mret acc
  | x :: xs' => acc' ← body acc x; for_each body xs' acc'
  end.

(** The same loop where the body has no state effect. *)
Fixpoint for_each_r {X A} (body : A → X → Result A) (xs : list X) (acc : A) : Result A :=
  match xs with
  | [] => Ok acc
  | x :: xs' => acc' ← body acc x; for_each_r body xs' acc'
  end.

(** ** Scalars

    [float] carries both tensor elements and Python floats (every tensor
    element converts exactly to a Python float with [.item()]); the tensor
    operations and the Python operations on it are separate, and nothing is
    assumed about any of them. *)
Class Scalars : Type := {
  float : Type;
  (* element-wise tensor arithmetic *)
  t_zero : float;
  t_add : float → float → float;
  t_mul : float → float → float;
  t_relu : float → float;
  (* Python float arithmetic *)
  py_zero : float;                      (* 0.0 *)
  py_add : float → float → float;
  py_mul : float → float → float;
  py_div : float → float → float;       (* only called with a nonzero divisor *)
  py_float : nat → float;               (* float(n) for an int n >= 0 *)
  py_round : float → Z → float;         (* round(x, ndigits) *)
  py_str : float → string;              (* str(x), as an f-string formats it *)
  (* random initial weights of a layer, by its name in the module *)
  init_weight : string → nat → nat → float;
  init_bias : string → nat → float;
}.

(** [x / n] for a float [x] and an int [n]. *)
Definition py_truediv `{Scalars} (x : float) (n : nat) : Result float :=
  if n =? 0 then Raise ZeroDivisionError else Ok (py_div x (py_float n)).

(** ** Tensors and layers *)
Section Tensors.
Context `{Scalars}.

(** A 2-D tensor of shape [(shape0, c)], row by row. *)
Record Tensor2 (c : nat) : Type := mkTensor2 {
  rows : list (list float);
}.
#[global] Arguments mkTensor2 {c} rows.
#[global] Arguments rows {c} t.

Definition shape0 {c} (t : Tensor2 c) : nat := length (rows t).

(** A 2-D tensor whose width is only known at run time. *)
Record DynTensor2 : Type := mkDyn {
  shape1 : nat;
  tensor : Tensor2 shape1;
}.
#[global] Arguments mkDyn {shape1} tensor.

(** [nn.Linear(in_features, out_features)]. *)
Record Linear (out_features : nat) : Type := mkLinear {
  in_features : nat;
  weight : nat → nat → float;     (* weight[j][k], j < out, k < in *)
  bias : nat → float;
}.
#[global] Arguments mkLinear {out_features} in_features weight bias.
#[global] Arguments in_features {out_features} l.
#[global] Arguments weight {out_features} l j k.
#[global] Arguments bias {out_features} l j.

Definition nn_Linear (name : string) (i o : nat) : Linear o :=
  mkLinear i (init_weight name) (init_bias name).

Definition dot (u v : list float) : float :=
  fold_left (fun acc xw => t_add acc (t_mul xw.1 xw.2)) (zip u v) t_zero.

(** [x @ weight.T + bias], refused when the width of [x] is not
    [in_features]. *)
Definition Linear_forward {o c} (l : Linear o) (x : Tensor2 c) : Result (Tensor2 o) :=
  if c =? in_features l then
    Ok (mkTensor2
          (map (fun row =>
                  map (fun j => t_add (dot row (map (weight l j) (seq 0 (in_features l))))
                                      (bias l j))
                      (seq 0 o))
               (rows x)))
  else Raise (RuntimeError "mat1 and mat2 shapes cannot be multiplied").

Definition ReLU {c} (x : Tensor2 c) : Tensor2 c :=
  mkTensor2 (map (map t_relu) (rows x)).

(** [nn.Sequential(nn.Linear(..), nn.ReLU())] *)
Definition Linear_ReLU {o c} (l : Linear o) (x : Tensor2 c) : Result (Tensor2 o) :=
  y ← Linear_forward l x; Ok (ReLU y).

(** [nn.Sequential(nn.Linear(..), nn.ReLU(), nn.Linear(..), nn.ReLU())] *)
Definition Linear_ReLU_x2 {h o c} (ls : Linear h * Linear o) (x : Tensor2 c)
  : Result (Tensor2 o) :=
  y ← Linear_ReLU ls.1 x; Linear_ReLU ls.2 y.

(** [torch.cat([x, p], dim=1)], refused when the batch sizes differ; the
    message is the one of torch 2. *)
Definition cat1 {a b} (x : Tensor2 a) (p : Tensor2 b) : Result (Tensor2 (a + b)) :=
  if shape0 x =? shape0 p then
    Ok (mkTensor2 (zip_with app (rows x) (rows p)))
  else Raise (RuntimeError
                ("Sizes of tensors must match except in dimension 1. Expected size "
                 +:+ pretty (shape0 x) +:+ " but got size " +:+ pretty (shape0 p)
                 +:+ " for tensor number 1 in the list.")).

(** [t.squeeze(1)] on a tensor of shape [(n, 1)]: the 1-D tensor of its
    [n] entries. *)
Definition squeeze1 (t : Tensor2 1) : list float := concat (rows t).
End Tensors.

(** ** The backbones of torchvision and the hand-written stack

    A call of a backbone is a function of its weights, the mode and the
    batch.  That is what the three backbones are in evaluation mode, and
    what the hand-written stack is in both modes.  In training mode the
    backbones of torchvision also overwrite the running statistics of
    their normalisation layers, and efficientnet_b0 drops residual
    branches at random; neither is modelled, so what is proved about a
    call in training mode is stated for the hand-written stack or under
    the hypothesis that the call returns what the statement names. *)
Class Vision `{Scalars} : Type := {
  (* one image of a batch; a batch is the list of its images *)
  Image : Type;
  (* a feature extractor with its weights *)
  Backbone : Type;
  (* resnet18(weights=DEFAULT) with fc = nn.Identity() *)
  resnet18_headless : Backbone;
  (* efficientnet_b0(weights=DEFAULT) with classifier = nn.Identity() *)
  efficientnet_b0_headless : Backbone;
  (* the Conv2d/ReLU/MaxPool2d stack ending in AdaptiveAvgPool2d, Flatten *)
  simple_cnn_stack : Backbone;
  (* calling a backbone, in training (true) or evaluation mode, on a batch *)
  backbone_apply : Backbone → bool → list Image → Result DynTensor2;
}.

(** ** The model *)
Section Model.
Context `{Vision}.

Record CNN : Type := mkCNN {
  model_type : string;
  use_extra_params : bool;
  training : bool;
  feature_extractor : Backbone;
  reduce : Linear 128;
  param_fc_2 : option (Linear 16 * Linear 64);
  param_fc_3 : option (Linear 16 * Linear 64);
  fc1 : Linear 64;
  fc2 : Linear 1;
}.

(** [CNN.__init__] *)
Definition CNN_init (model_type : string) (use_extra_params : bool) : Result CNN :=
  '(feature_extractor, feature_dim) ←
    (if String.eqb model_type "resnet18" then
       Ok (resnet18_headless, 512)
     else if String.eqb model_type "efficientnet_b0" then
       Ok (efficientnet_b0_headless, 1280)
     else if String.eqb model_type "simple_cnn" then
       Ok (simple_cnn_stack, 64)
     else
       Raise (ValueError ("Unsupported model type: " +:+ model_type)));
  let reduce := nn_Linear "reduce.0" feature_dim 128 in
  let fc2 := nn_Linear "fc2" 64 1 in
  if use_extra_params then
    Ok (mkCNN model_type use_extra_params true feature_extractor reduce
          (Some (nn_Linear "param_fc_2.0" 2 16, nn_Linear "param_fc_2.2" 16 64))
          (Some (nn_Linear "param_fc_3.0" 3 16, nn_Linear "param_fc_3.2" 16 64))
          (nn_Linear "fc1.0" (128 + 64) 64)
          fc2)
  else
    Ok (mkCNN model_type use_extra_params true feature_extractor reduce
          None None
          (nn_Linear "fc1.0" 128 64)
          fc2).

(** Reading an attribute that [__init__] may not have set. *)
Definition getattr {A} (name : string) (a : option A) : Result A :=
  match a with
  | Some v => Ok v
  | None => Raise (AttributeError name)
  end.

(** [CNN.forward] *)
Definition forward (self : CNN) (x : list Image) (extra_params : option DynTensor2)
  : Result (list float) :=
  x ← backbone_apply (feature_extractor self) (training self) x;
  x ← Linear_ReLU (reduce self) (tensor x);
  x ← (if use_extra_params self then
         match extra_params with
         | None => Raise (ValueError "extra_params is required but not provided.")
         | Some extra_params =>
             p ← (if shape1 extra_params =? 2 then
                    param_fc_2 ← getattr "param_fc_2" (param_fc_2 self);
                    Linear_ReLU_x2 param_fc_2 (tensor extra_params)
                  else if shape1 extra_params =? 3 then
                    param_fc_3 ← getattr "param_fc_3" (param_fc_3 self);
                    Linear_ReLU_x2 param_fc_3 (tensor extra_params)
                  else
                    Raise (ValueError "error - extra_params shape"));
             x ← cat1 x p;
             Ok (mkDyn x)
         end
       else Ok (mkDyn x));
  out ← Linear_ReLU (fc1 self) (tensor x);
  out ← Linear_forward (fc2 self) out;
  Ok (squeeze1 out).

(** [model.train()] (mode [true]) and [model.eval()] (mode [false]) *)
Definition set_training (mode : bool) (model : CNN) : CNN :=
  mkCNN (model_type model) (use_extra_params model) mode
    (feature_extractor model) (reduce model) (param_fc_2 model)
    (param_fc_3 model) (fc1 model) (fc2 model).

(** Everything an optimizer may update. *)
Definition parameters (model : CNN) :=
  (feature_extractor model, reduce model, param_fc_2 model, param_fc_3 model,
   fc1 model, fc2 model).


End Model.

(** ** Loss, optimizer, metric and working directory: the collaborators
    of the loops *)
Class Learning `{Vision} : Type := {
  (* criterion(outputs, labels).item() *)
  criterion : list float → list float → Result float;
  Optimizer : Type;
  (* optimizer.zero_grad(); loss.backward(); optimizer.step(), for the loss
     of the model on one batch: the model and the optimizer afterwards *)
  optimizer_update :
    CNN → Optimizer → list Image → list float → DynTensor2 → CNN * Optimizer;
  (* sklearn.metrics.mean_absolute_error(y_true, y_pred) *)
  mean_absolute_error : list float → list float → Result float;
  (* what open(name, mode='w') raises for a name in the working directory,
     if anything *)
  open_error : string → option exn;
  (* the result files of the four documented targets can be created there *)
  open_documented : ∀ (target : string) (MAE : float),
    target ∈ ["mag"; "dep"; "lon"; "lat"] →
    open_error ("Prediction(" +:+ target +:+ ") - MAE = " +:+ py_str MAE +:+ ".csv")
      = None;
}.

Section Loops.
Context `{Learning}.

(** What a train or validation loader yields: [(inputs, labels, extra_params)]. *)
Definition Batch : Type := list Image * list float * DynTensor2.
(** What the test loader yields: [(images, image_names, extra_params)]. *)
Definition TestBatch : Type := list Image * list string * DynTensor2.

(** [train]; the state is the model and the optimizer. *)
Definition train (train_loader : list Batch) : M (CNN * Optimizer) float :=
  '(model, optimizer) ← get;
  put (set_training true model, optimizer);;
  '(total_loss, total) ←
    for_each (fun '(total_loss, total) '(inputs, labels, extra_params) =>
      '(model, optimizer) ← get;
      outputs ← lift (forward model inputs (Some extra_params));
      loss ← lift (criterion outputs labels);
      put (optimizer_update model optimizer inputs labels extra_params);;
      mret (py_add total_loss (py_mul loss (py_float (length inputs))),
            total + length inputs))
      train_loader (py_zero, 0);
  avg_loss ← lift (py_truediv total_loss total);
  mret avg_loss.

(** [validate]; the state is the model. *)
Definition validate (val_loader : list Batch) : M CNN (float * float) :=
  model ← get;
  put (set_training false model);;
  '(total_loss, total, all_labels, all_outputs) ←
    for_each (fun '(total_loss, total, all_labels, all_outputs)
                  '(inputs, labels, extra_params) =>
      model ← get;
      outputs ← lift (forward model inputs (Some extra_params));
      loss ← lift (criterion outputs labels);
      mret (py_add total_loss (py_mul loss (py_float (length inputs))),
            total + length inputs,
            all_labels ++ labels,
            all_outputs ++ outputs))
      val_loader (py_zero, 0, [], []);
  avg_loss ← lift (py_truediv total_loss total);
  mae ← lift (mean_absolute_error all_labels all_outputs);
  mret (avg_loss, mae).

(** *** The reference table and the result file of [test] *)

(** A row of [Earthquake.csv], by the columns the code reads. *)
Record Row : Type := mkRow {
  col_Image : string;
  col_Mag : float;
  col_Lon : float;
  col_Lat : float;
  col_Depth : float;
}.

(** [dict(zip(keys, values))]: a later pair replaces an earlier one. *)
Definition dict_zip (keys : list string) (values : list float) : gmap string float :=
  fold_left (fun d kv => <[kv.1 := kv.2]> d) (zip keys values) ∅.

(** [d[k]] *)
Definition getitem (d : gmap string float) (k : string) : Result float :=
  match d !! k with
  | Some v => Ok v
  | None => Raise (KeyError k)
  end.

(** A value of a prediction record. *)
Inductive cell : Type :=
| Str (s : string)
| Num (x : float).

(** A prediction record: a dict display, keys in insertion order. *)
Definition record : Type := list (string * cell).

Fixpoint record_get (key : string) (r : record) : option cell :=
  match r with
  | [] => None
  | (k, v) :: r' => if String.eqb k key then Some v else record_get key r'
  end.

(** The files written: name to lines, a line being its cells. *)
Abbreviation Files := (gmap string (list (list cell))).

(** [open(name, mode='w')]: the file is created empty, or truncated,
    unless the working directory refuses the name. *)
Definition open_w {S} (name : string) : M (S * Files) unit :=
  match open_error name with
  | Some e => lift (Raise e)
  | None => '(s, files) ← get; put (s, <[name := []]> files)
  end.

Definition write_line {S} (name : string) (line : list cell) : M (S * Files) unit :=
  '(s, files) ← get; put (s, alter (fun lines => lines ++ [line]) name files).

(** [csv.DictWriter(f, fieldnames).writeheader()] *)
Definition writeheader {S} (name : string) (fieldnames : list string)
  : M (S * Files) unit :=
  write_line name (map Str fieldnames).

(** [csv.DictWriter(f, fieldnames).writerow(row)] *)
Definition writerow {S} (name : string) (fieldnames : list string) (row : record)
  : M (S * Files) unit :=
  if forallb (fun kv => existsb (String.eqb kv.1) fieldnames) row then
    write_line name (map (fun k => default (Str "") (record_get k row)) fieldnames)
  else
    lift (Raise (ValueError "dict contains fields not in fieldnames")).

(** The body of the inner loop of [test], for one [(name, pred)]. *)
Definition test_sample (target : string)
    (label_mag label_lon label_lat label_dep : gmap string float)
    (acc : list record * list float * list float) (np : string * float)
  : Result (list record * list float * list float) :=
  let '(predictions, y_true, y_pred) := acc in
  let '(name, pred) := np in
  if String.eqb target "mag" then
    v ← getitem label_mag name;
    let predictions :=
      predictions ++ [[("id", Str name); ("Mag", Num v);
                       ("prediction", Num (py_round pred 1))]] in
    v ← getitem label_mag name;
    Ok (predictions, y_true ++ [v], y_pred ++ [py_round pred 1])
  else if String.eqb target "dep" then
    v ← getitem label_dep name;
    let predictions :=
      predictions ++ [[("id", Str name); ("Dep", Num v);
                       ("prediction", Num (py_round pred 1))]] in
    v ← getitem label_dep name;
    Ok (predictions, y_true ++ [v], y_pred ++ [py_round pred 1])
  else if String.eqb target "lon" then
    v ← getitem label_lon name;
    let predictions :=
      predictions ++ [[("id", Str name); ("Lon", Num v);
                       ("prediction", Num (py_round pred 3))]] in
    v ← getitem label_lon name;
    Ok (predictions, y_true ++ [v], y_pred ++ [py_round pred 2])
  else
    v ← getitem label_lat name;
    let predictions :=
      predictions ++ [[("id", Str name); ("Lat", Num v);
                       ("prediction", Num (py_round pred 3))]] in
    v ← getitem label_lat name;
    Ok (predictions, y_true ++ [v], y_pred ++ [py_round pred 2]).

(** [test]; [df] is what [pd.read_csv('Earthquake.csv')] returned, the
    state is the model and the files written.  The final [print] is not
    modelled. *)
Definition test (df : list Row) (test_loader : list TestBatch) (target : string)
  : M (CNN * Files) float :=
  '(model, files) ← get;
  put (set_training false model, files);;
  let label_mag := dict_zip (map col_Image df) (map col_Mag df) in
  let label_lon := dict_zip (map col_Image df) (map col_Lon df) in
  let label_lat := dict_zip (map col_Image df) (map col_Lat df) in
  let label_dep := dict_zip (map col_Image df) (map col_Depth df) in
  '(predictions, y_true, y_pred) ←
    for_each (fun acc '(images, image_names, extra_params) =>
      '(model, _) ← get;
      outputs ← lift (forward model images (Some extra_params));
      let predicted := outputs in
      lift (for_each_r (test_sample target label_mag label_lon label_lat label_dep)
              (zip image_names predicted) acc))
      test_loader ([], [], []);
  mae ← lift (mean_absolute_error y_true y_pred);
  let MAE := py_round mae 3 in
  let csvfile := "Prediction(" +:+ target +:+ ") - MAE = " +:+ py_str MAE +:+ ".csv" in
  open_w csvfile;;
  let fieldnames :=
    if String.eqb target "mag" then ["id"; "Mag"; "prediction"]
    else if String.eqb target "dep" then ["id"; "Dep"; "prediction"]
    else if String.eqb target "lon" then ["id"; "Lon"; "prediction"]
    else ["id"; "Lat"; "prediction"] in
  writeheader csvfile fieldnames;;
  for_each (fun _ row => writerow csvfile fieldnames row) predictions tt;;
  mret MAE.
End Loops.

(** ** What the loops are specified against *)
Section LoopSpecs.
Context `{Learning}.

(** The size-weighted mean of per-batch losses, given as [(loss, batch
    size)] in the order of the pass: the sum of loss times batch size
    over the number of samples, in Python's float arithmetic. *)
Definition weighted_mean (obs : list (float * nat)) : float :=
  py_div
    (fold_left (fun acc ln => py_add acc (py_mul ln.1 (py_float ln.2))) obs py_zero)
    (py_float (sum_list (map snd obs))).

(** The number of samples a loader yields in one pass. *)
Definition dataset_size {L} (loader : list (list Image * L * DynTensor2)) : nat :=
  sum_list (map (fun b => length b.1.1) loader).

(** One training pass, batch by batch: from the model and optimizer
    before it, the loss and size of each batch and the model and optimizer
    after it.  Each batch is run on the model the previous steps left. *)
Fixpoint train_pass (s : CNN * Optimizer) (loader : list Batch)
  : Result (list (float * nat) * (CNN * Optimizer)) :=
  match loader with
  | [] => Ok ([], s)
  | (inputs, labels, extra_params) :: rest =>
      outputs ← forward s.1 inputs (Some extra_params);
      loss ← criterion outputs labels;
      '(obs, s') ← train_pass (optimizer_update s.1 s.2 inputs labels extra_params) rest;
      Ok ((loss, length inputs) :: obs, s')
  end.

(** The predictions and the loss of a model on one batch. *)
Definition evaluated (model : CNN) (b : Batch) (r : list float * float) : Prop :=
  forward model b.1.1 (Some b.2) = Ok r.1 ∧ criterion r.1 b.1.2 = Ok r.2.
End LoopSpecs.

(** ** What the test loop is specified against *)
Section TestSpecs.
Context `{Learning}.

(** The predictions of a pass over the test set, as [(name, pred)] pairs
    in the order the loop meets them, from the outputs of the model batch
    by batch. *)
Definition test_samples (loader : list TestBatch) (outs : list (list float))
  : list (string * float) :=
  concat (zip_with (fun b out => zip b.1.2 out) loader outs).

(** The target policy the specification documents: the name of the
    ground-truth column, the column of the table it is read from, the
    decimals kept in the written record and the decimals kept for the
    aggregate error. *)
Definition documented_policy (target : string)
  : option (string * (Row → float) * Z * Z) :=
  if decide (target = "mag") then Some ("Mag", col_Mag, 1%Z, 1%Z)
  else if decide (target = "dep") then Some ("Dep", col_Depth, 1%Z, 1%Z)
  else if decide (target = "lon") then Some ("Lon", col_Lon, 3%Z, 2%Z)
  else if decide (target = "lat") then Some ("Lat", col_Lat, 3%Z, 2%Z)
  else None.

(** The same four choices as the branches of [test] make them, for any
    target string. *)
Definition target_column (target : string) : string :=
  if String.eqb target "mag" then "Mag"
  else if String.eqb target "dep" then "Dep"
  else if String.eqb target "lon" then "Lon"
  else "Lat".
Definition target_label (target : string) : Row → float :=
  if String.eqb target "mag" then col_Mag
  else if String.eqb target "dep" then col_Depth
  else if String.eqb target "lon" then col_Lon
  else col_Lat.
Definition record_digits (target : string) : Z :=
  if String.eqb target "mag" then 1
  else if String.eqb target "dep" then 1
  else 3.
Definition metric_digits (target : string) : Z :=
  if String.eqb target "mag" then 1
  else if String.eqb target "dep" then 1
  else 2.

(** The name of the result file. *)
Definition csv_name (target : string) (MAE : float) : string :=
  "Prediction(" +:+ target +:+ ") - MAE = " +:+ py_str MAE +:+ ".csv".

(** The record of one sample and the line written for it. *)
Definition sample_record (column : string) (digits : Z) (np : string * float) (v : float)
  : record :=
  [("id", Str np.1); (column, Num v); ("prediction", Num (py_round np.2 digits))].
Definition sample_line (digits : Z) (np : string * float) (v : float) : list cell :=
  [Str np.1; Num v; Num (py_round np.2 digits)].

(** A record of the three fields [test] gives it. *)
Definition shaped (column : string) (r : record) : Prop :=
  ∃ name v p, r = [("id", Str name); (column, Num v); ("prediction", Num p)].

(** The body of the inner loop with the four dictionaries of [test]. *)
Definition sample_step (df : list Row) (target : string) :=
  test_sample target
    (dict_zip (map col_Image df) (map col_Mag df))
    (dict_zip (map col_Image df) (map col_Lon df))
    (dict_zip (map col_Image df) (map col_Lat df))
    (dict_zip (map col_Image df) (map col_Depth df)).

(** C9 as the specification states it, on a test set that the run for
    'lat' handles to its end: whatever other target is given, bar 'mag',
    'dep' and 'lon', the run does not fail and writes the latitude lines
    under the header id, Lat, prediction. *)
Definition latitude_for_any_other_target
    (df : list Row) (test_loader : list TestBatch) (model : CNN)
    (files : gmap string (list (list cell))) : Prop :=
  ∀ target, target ≠ "mag" → target ≠ "dep" → target ≠ "lon" →
    ∀ MAE s, test df test_loader "lat" (model, files) = (Ok MAE, s) →
      ∃ lines,
        test df test_loader target (model, files)
          = (Ok MAE,
             (s.1,
              <[csv_name target MAE := [Str "id"; Str "Lat"; Str "prediction"] :: lines]>
                files)).

(** The two loops of [test] as one pure fold over the batches, for a
    model that stays as it is. *)
Definition collect (model : CNN) (df : list Row) (target : string)
    (test_loader : list TestBatch) (acc : list record * list float * list float)
  : Result (list record * list float * list float) :=
  for_each_r (fun acc b =>
      outputs ← forward model b.1.1 (Some b.2);
      for_each_r (sample_step df target) (zip b.1.2 outputs) acc)
    test_loader acc.
End TestSpecs.

(** ** An instance to run the model on: exact rational arithmetic

    Rationals in lowest terms stand for the floats, a backbone is the width
    of its embedding and repeats the single number that stands for an image. *)
Module Exact.
Definition relu (x : Q) : Q := if Qle_bool 0 x then x else 0%Q.

Definition round_half_even (x : Q) : Z :=
  let f := Qfloor x in
  match (x - inject_Z f ?= 1 # 2)%Q with
  | Lt => f
  | Gt => (f + 1)%Z
  | Eq => if Z.even f then f else (f + 1)%Z
  end.

Definition round (x : Q) (ndigits : Z) : Q :=
  let scale :=
    if (0 <=? ndigits)%Z then inject_Z (10 ^ ndigits)
    else (/ inject_Z (10 ^ (- ndigits)))%Q in
  Qred (inject_Z (round_half_even (x * scale)) / scale).

(** [str(x)] as Python prints a float with at most 3 decimals: the
    value cut to thousandths, the trailing zeros dropped but for one
    decimal. *)
Definition digits (n : N) : string := NilEmpty.string_of_uint (N.to_uint n).
Definition str (x : Q) : string :=
  let t := Z.to_N (Qfloor (Qabs x * 1000)) in
  let f := (t mod 1000)%N in
  (if Qle_bool 0 x then "" else "-") +:+ digits (t / 1000) +:+ "." +:+
  (if (f mod 100 =? 0)%N then digits (f / 100)
   else if (f mod 10 =? 0)%N then (if (f <? 100)%N then "0" else "") +:+ digits (f / 10)
   else (if (f <? 10)%N then "00" else if (f <? 100)%N then "0" else "") +:+ digits f).

(** The working directory has no subdirectory: a name with a path
    separator names a file in a directory that does not exist. *)
Fixpoint has_slash (s : string) : bool :=
  match s with
  | EmptyString => false
  | String c s' => Ascii.eqb c "/"%char || has_slash s'
  end.
Definition directory (name : string) : option exn :=
  if has_slash name then Some (FileNotFoundError name) else None.

Lemma has_slash_app (s1 s2 : string) :
  has_slash (s1 +:+ s2) = has_slash s1 || has_slash s2.
Proof.
  induction s1 as [|c s1 IH]; [done|].
  change (String c s1 +:+ s2) with (String c (s1 +:+ s2)).
  cbn. by rewrite IH, orb_assoc.
Qed.

Lemma has_slash_digits (n : N) : has_slash (digits n) = false.
Proof. unfold digits. induction (N.to_uint n); cbn; done. Qed.

Lemma has_slash_str (x : Q) : has_slash (str x) = false.
Proof.
  unfold str. rewrite !has_slash_app, has_slash_digits.
  repeat case_match; rewrite ?has_slash_app, ?has_slash_digits; reflexivity.
Qed.

Definition scalars : Scalars := {|
  float := Q;
  t_zero := 0%Q;
  t_add x y := Qred (x + y);
  t_mul x y := Qred (x * y);
  t_relu := relu;
  py_zero := 0%Q;
  py_add x y := Qred (x + y);
  py_mul x y := Qred (x * y);
  py_div x y := Qred (x / y);
  py_float n := inject_Z (Z.of_nat n);
  py_round := round;
  py_str := str;
  init_weight _ _ _ := (1 # 64)%Q;
  init_bias _ _ := 0%Q;
|}.

#[local] Existing Instance scalars.

(** The embedding of a batch: a row per image, the image's number
    repeated over the width. *)
Definition embed (d : nat) (imgs : list Q) : DynTensor2 :=
  @mkDyn _ d (mkTensor2 (map (replicate d) imgs)).

Definition vision : Vision := {|
  Image := Q;
  Backbone := nat;
  resnet18_headless := 512;
  efficientnet_b0_headless := 1280;
  simple_cnn_stack := 64;
  backbone_apply d _ imgs := Ok (embed d imgs);
|}.
#[local] Existing Instance vision.

Definition Qsum (xs : list Q) : Q := fold_left (fun a x => Qred (a + x)) xs 0%Q.

(** Mean squared error. *)
Definition mse (outputs labels : list Q) : Result Q :=
  if length outputs =? length labels then
    Ok (Qred (Qsum (zip_with (fun o l => (o - l) * (o - l))%Q outputs labels)
              / inject_Z (Z.of_nat (length outputs))))
  else Raise (RuntimeError "The size of tensor a must match the size of tensor b").

(** Mean absolute error; like sklearn's it rejects lists of different
    lengths and empty lists. *)
Definition mae (y_true y_pred : list Q) : Result Q :=
  if negb (length y_true =? length y_pred) then
    Raise (ValueError "Found input variables with inconsistent numbers of samples")
  else if length y_true =? 0 then
    Raise (ValueError "Found array with 0 sample(s)")
  else
    Ok (Qred (Qsum (zip_with (fun t p => Qabs (p - t)) y_true y_pred)
              / inject_Z (Z.of_nat (length y_true)))).

(** A stand-in for a gradient step: it moves the bias of the last layer
    towards the mean label and counts the steps taken. *)
Definition step (model : CNN) (steps : nat)
    (inputs : list Q) (labels : list Q) (extra_params : DynTensor2) : CNN * nat :=
  let b := Qred (Qsum labels / inject_Z (Z.of_nat (length labels))) in
  (mkCNN (model_type model) (use_extra_params model) (training model)
     (feature_extractor model) (reduce model) (param_fc_2 model)
     (param_fc_3 model) (fc1 model)
     (mkLinear 64 (weight (fc2 model))
        (fun j => Qred ((bias (fc2 model) j + b) / 2))),
   Datatypes.S steps).

Lemma directory_documented (target : string) (MAE : Q) :
  target ∈ ["mag"; "dep"; "lon"; "lat"] →
  directory ("Prediction(" +:+ target +:+ ") - MAE = " +:+ str MAE +:+ ".csv") = None.
Proof.
  intros Hin. unfold directory. rewrite !has_slash_app, has_slash_str.
  repeat (apply elem_of_cons in Hin as [->|Hin]); [..|by apply elem_of_nil in Hin];
    reflexivity.
Qed.

Definition learning : Learning := {|
  criterion := mse;
  Optimizer := nat;
  optimizer_update := step;
  mean_absolute_error := mae;
  open_error := directory;
  open_documented := directory_documented;
|}.

#[local] Existing Instance learning.

(** Sample data: a batch of auxiliary vectors, entry [i + j] at [(i, j)]. *)
Definition aux (rows width : nat) : DynTensor2 :=
  @mkDyn _ width
    (mkTensor2 (map (fun i => map (fun j => inject_Z (Z.of_nat (i + j))) (seq 0 width))
                    (seq 0 rows))).

(** A batch of two images. *)
Definition images : list Image := [1; 2]%Q.

(** The models [__init__] builds for simple_cnn with auxiliary
    parameters, for efficientnet_b0 with them and for resnet18 without. *)
Definition model : CNN :=
  mkCNN "simple_cnn" true true simple_cnn_stack (nn_Linear "reduce.0" 64 128)
    (Some (nn_Linear "param_fc_2.0" 2 16, nn_Linear "param_fc_2.2" 16 64))
    (Some (nn_Linear "param_fc_3.0" 3 16, nn_Linear "param_fc_3.2" 16 64))
    (nn_Linear "fc1.0" (128 + 64) 64) (nn_Linear "fc2" 64 1).

(** Two batches with labels, the second with auxiliary vectors of the
    other width. *)
Definition labelled_loader : list Batch :=
  [(images, [3; 4], aux 2 2); ([5], [1], aux 1 3)]%Q.

(** What one training pass over them observes and leaves. *)
Definition pass_losses : list (Q * nat) :=
  Eval vm_compute in
    match train_pass (set_training true model, 0) labelled_loader with
    | Ok (obs, _) => obs
    | Raise _ => []
    end.
Definition pass_end : CNN * nat :=
  Eval vm_compute in
    match train_pass (set_training true model, 0) labelled_loader with
    | Ok (_, s) => s
    | Raise _ => (model, 0)
    end.

(** The predictions and loss of the model in evaluation mode on each
    batch, and the mean absolute error over both. *)
Definition eval_results : list (list Q * Q) :=
  Eval vm_compute in
    map (fun b : Batch =>
           match forward (set_training false model) b.1.1 (Some b.2) with
           | Ok outputs =>
               (outputs, match criterion outputs b.1.2 with Ok l => l | Raise _ => 0%Q end)
           | Raise _ => ([], 0%Q)
           end) labelled_loader.
Definition eval_mae : Q :=
  Eval vm_compute in
    match mean_absolute_error (concat (map (fun b : Batch => b.1.2) labelled_loader))
            (concat (map fst eval_results)) with
    | Ok x => x
    | Raise _ => 0%Q
    end.

(** A reference table of two rows, a test batch it covers and one with
    an identifier it lacks. *)
Definition table : list Row :=
  [mkRow "A" 5 120 23 10; mkRow "B" (62 # 10) 121 24 11]%Q.
Definition test_loader : list TestBatch := [(images, ["A"; "B"], aux 2 2)].
Definition test_loader_missing : list TestBatch := [(images, ["A"; "C"], aux 2 2)].

(** The predictions on the test batch and the mean absolute error of
    their 1-decimal roundings against the magnitudes of the table. *)
Definition test_outputs : list (list Q) :=
  Eval vm_compute in
    map (fun b : TestBatch =>
           match forward (set_training false model) b.1.1 (Some b.2) with
           | Ok outputs => outputs
           | Raise _ => []
           end) test_loader.
Definition test_mae : Q :=
  Eval vm_compute in
    match mean_absolute_error [5; 62 # 10]%Q
            (map (fun s => py_round s.2 1) (test_samples test_loader test_outputs)) with
    | Ok x => x
    | Raise _ => 0%Q
    end.

(** The same against the latitudes of the table, the predictions rounded
    to 2 decimals. *)
Definition test_mae_lat : Q :=
  Eval vm_compute in
    match mean_absolute_error [23; 24]%Q
            (map (fun s => py_round s.2 2) (test_samples test_loader test_outputs)) with
    | Ok x => x
    | Raise _ => 0%Q
    end.
End Exact.

(** Closes an equation between closed terms by evaluating both sides. *)
Ltac by_evaluation :=
  match goal with
  | |- @eq ?A _ ?b => vm_cast_no_check (@eq_refl A b)
  end.


(** ** Well-formed batches *)
Section Batches.
Context `{Learning}.

(** A batch the model [m] accepts in the given mode as far as its shapes
    go: the backbone embeds the images, a row of the reduction layer's
    input width per image, and the auxiliary vectors have width 2 or 3, a
    row per image. *)
Definition well_shaped {L} (m : CNN) (mode : bool) (b : list Image * L * DynTensor2)
  : Prop :=
  (∃ emb, backbone_apply (feature_extractor m) mode b.1.1 = Ok emb ∧
          shape1 emb = in_features (reduce m) ∧
          shape0 (tensor emb) = length b.1.1) ∧
  (shape1 b.2 = 2 ∨ shape1 b.2 = 3) ∧
  shape0 (tensor b.2) = length b.1.1.
End Batches.

(** ** Stacking batches *)
Section Stacking.
Context `{Scalars}.

(** [torch.cat([a, b], dim=0)] for two tensors of the same width: the
    rows of [a], then the rows of [b]. *)
Definition vstack {c} (a b : Tensor2 c) : Tensor2 c := mkTensor2 (rows a ++ rows b).
End Stacking.

(** ** The hand-written backbone: the [simple_cnn] stack of [__init__]

    What the abstract [simple_cnn_stack] stands for, layer by layer.  The
    arithmetic the pooling layers add and the initial kernels are once more
    an interface. *)
Class ConvScalars `{Scalars} : Type := {
  t_max : float → float → float;
  (* the mean of the entries of one channel, in row-major order *)
  t_mean : list float → float;
  (* random initial kernel of a convolution, by its name in the module *)
  init_kernel : string → nat → nat → nat → nat → float;
}.

Section Conv.
Context `{ConvScalars}.

(** A 4-D tensor of shape [(dim0, dim1, dim2, dim3)]: batch, channels,
    height, width. *)
Record Tensor4 : Type := mkTensor4 {
  dim0 : nat;
  dim1 : nat;
  dim2 : nat;
  dim3 : nat;
  data4 : list (list (list (list float)));
}.

Definition at4 (x : Tensor4) (b c i j : nat) : float :=
  nth j (nth i (nth c (nth b (data4 x) []) []) []) t_zero.

(** The tensor of a shape with a given entry at each index. *)
Definition tabulate4 (B C H W : nat) (f : nat → nat → nat → nat → float) : Tensor4 :=
  mkTensor4 B C H W
    (map (fun b =>
       map (fun c =>
         map (fun i =>
           map (fun j => f b c i j) (seq 0 W)) (seq 0 H)) (seq 0 C)) (seq 0 B)).

(** [nn.Conv2d(in_channels, out_channels, kernel_size, stride, padding)] *)
Record Conv2d : Type := mkConv2d {
  in_channels : nat;
  out_channels : nat;
  kernel_size : nat;
  stride : nat;
  padding : nat;
  kernel : nat → nat → nat → nat → float;   (* weight[o][c][di][dj] *)
  conv_bias : nat → float;
}.

Definition nn_Conv2d (name : string) (i o k s p : nat) : Conv2d :=
  mkConv2d i o k s p (init_kernel name) (init_bias name).

(** The entry of the zero-padded input at row [r] and column [q] of the
    padded channel. *)
Definition padded (p : nat) (x : Tensor4) (b c r q : nat) : float :=
  if (r <? p) || (dim2 x + p <=? r) || (q <? p) || (dim3 x + p <=? q) then t_zero
  else at4 x b c (r - p) (q - p).

(** The indices [(c, di, dj)] of a kernel, in the order they are summed. *)
Definition kernel_indices (channels k : nat) : list (nat * nat * nat) :=
  c ← seq 0 channels; di ← seq 0 k; dj ← seq 0 k; [(c, di, dj)].

Definition Conv2d_forward (l : Conv2d) (x : Tensor4) : Result Tensor4 :=
  if negb (dim1 x =? in_channels l) then
    Raise (RuntimeError "expected input to have in_channels channels")
  else if stride l =? 0 then
    Raise (RuntimeError "non-positive stride is not supported")
  else if (dim2 x + 2 * padding l <? kernel_size l)
          || (dim3 x + 2 * padding l <? kernel_size l) then
    Raise (RuntimeError "Kernel size can't be greater than actual input size")
  else
    Ok (tabulate4 (dim0 x) (out_channels l)
          ((dim2 x + 2 * padding l - kernel_size l) / stride l + 1)
          ((dim3 x + 2 * padding l - kernel_size l) / stride l + 1)
          (fun b o i j =>
             t_add
               (dot (map (fun '(c, di, dj) =>
                            padded (padding l) x b c (i * stride l + di) (j * stride l + dj))
                         (kernel_indices (in_channels l) (kernel_size l)))
                    (map (fun '(c, di, dj) => kernel l o c di dj)
                         (kernel_indices (in_channels l) (kernel_size l))))
               (conv_bias l o))).

(** [nn.ReLU()] on a 4-D tensor. *)
Definition ReLU4 (x : Tensor4) : Tensor4 :=
  tabulate4 (dim0 x) (dim1 x) (dim2 x) (dim3 x) (fun b c i j => t_relu (at4 x b c i j)).

Definition max_list (xs : list float) : float :=
  match xs with
  | [] => t_zero
  | y :: ys => fold_left t_max ys y
  end.

(** [nn.MaxPool2d(k)]: windows of [k] by [k], stride [k], no padding. *)
Definition MaxPool2d_forward (k : nat) (x : Tensor4) : Result Tensor4 :=
  if k =? 0 then
    Raise (RuntimeError "stride should not be zero")
  else if (dim2 x <? k) || (dim3 x <? k) then
    Raise (RuntimeError "Output size is too small")
  else
    Ok (tabulate4 (dim0 x) (dim1 x) ((dim2 x - k) / k + 1) ((dim3 x - k) / k + 1)
          (fun b c i j =>
             max_list (di ← seq 0 k; dj ← seq 0 k; [at4 x b c (i * k + di) (j * k + dj)]))).

(** [nn.AdaptiveAvgPool2d((1, 1))] *)
Definition AdaptiveAvgPool2d_1x1 (x : Tensor4) : Result Tensor4 :=
  if (dim2 x =? 0) || (dim3 x =? 0) then
    Raise (RuntimeError "Expected input to have non-zero size for non-batch dimensions")
  else
    Ok (tabulate4 (dim0 x) (dim1 x) 1 1
          (fun b c _ _ =>
             t_mean (i ← seq 0 (dim2 x); j ← seq 0 (dim3 x); [at4 x b c i j]))).

(** [nn.Flatten()]: all dimensions but the first become one. *)
Definition Flatten (x : Tensor4) : DynTensor2 :=
  @mkDyn _ (dim1 x * dim2 x * dim3 x)
    (mkTensor2
       (map (fun b =>
               map (fun n => at4 x b (n / (dim2 x * dim3 x))
                                 (n mod (dim2 x * dim3 x) / dim3 x)
                                 (n mod dim3 x))
                   (seq 0 (dim1 x * dim2 x * dim3 x)))
            (seq 0 (dim0 x)))).

(** The three convolutions of the stack, the layers with weights. *)
Record SimpleCNN : Type := mkSimpleCNN {
  conv_0 : Conv2d;
  conv_3 : Conv2d;
  conv_6 : Conv2d;
}.

(** The [nn.Sequential] that [__init__] builds for ['simple_cnn']. *)
Definition simple_cnn_init : SimpleCNN :=
  mkSimpleCNN
    (nn_Conv2d "feature_extractor.0" 3 16 3 1 1)
    (nn_Conv2d "feature_extractor.3" 16 32 3 1 1)
    (nn_Conv2d "feature_extractor.6" 32 64 3 1 1).

(** Calling it. *)
Definition simple_cnn_forward (net : SimpleCNN) (x : Tensor4) : Result DynTensor2 :=
  x ← Conv2d_forward (conv_0 net) x;
  let x := ReLU4 x in
  x ← MaxPool2d_forward 2 x;
  x ← Conv2d_forward (conv_3 net) x;
  let x := ReLU4 x in
  x ← MaxPool2d_forward 2 x;
  x ← Conv2d_forward (conv_6 net) x;
  let x := ReLU4 x in
  x ← AdaptiveAvgPool2d_1x1 x;
  Ok (Flatten x).

(** What training does not change in a convolution and in the stack. *)
Definition conv_layout (l : Conv2d) : nat * nat * nat * nat * nat :=
  (in_channels l, out_channels l, kernel_size l, stride l, padding l).
Definition stack_layout (net : SimpleCNN) :=
  (conv_layout (conv_0 net), conv_layout (conv_3 net), conv_layout (conv_6 net)).

(** *** Batches of the stack put together

    [torch.cat([x, y], dim=0)] for two batches of pictures of one shape:
    the pictures of [x], then the pictures of [y]. *)
Definition cat0 (x y : Tensor4) : Tensor4 :=
  mkTensor4 (dim0 x + dim0 y) (dim1 x) (dim2 x) (dim3 x) (data4 x ++ data4 y).

(** The batch dimension is the number of pictures held. *)
Definition batch_ok (x : Tensor4) : Prop := length (data4 x) = dim0 x.

(** Two batches of pictures of one shape. *)
Definition same_frame (x y : Tensor4) : Prop :=
  dim1 y = dim1 x ∧ dim2 y = dim2 x ∧ dim3 y = dim3 x.

(** *** The model with this stack for backbone

    Images are arrays of [channels] channels, [height] rows and [width]
    columns; the two pretrained backbones stay abstract. *)
Section StackVision.
Variables (channels height width : nat).
Variable Pretrained : Type.
Variables (resnet18_weights efficientnet_b0_weights : Pretrained).
Variable pretrained_apply :
  Pretrained → bool → list (list (list (list float))) → Result DynTensor2.

Definition stack_vision : Vision := {|
  Image := list (list (list float));
  Backbone := Pretrained + SimpleCNN;
  resnet18_headless := inl resnet18_weights;
  efficientnet_b0_headless := inl efficientnet_b0_weights;
  simple_cnn_stack := inr simple_cnn_init;
  backbone_apply net mode x :=
    match net with
    | inl weights => pretrained_apply weights mode x
    | inr net => simple_cnn_forward net (mkTensor4 (length x) channels height width x)
    end;
|}.
End StackVision.
End Conv.

(** ** More sample data over the exact rationals *)
Module ExactEdges.
#[local] Existing Instance Exact.scalars.
#[local] Existing Instance Exact.vision.
#[local] Existing Instance Exact.learning.

(** A loader of one batch without samples, and what a training pass and
    an evaluation pass over it observe and leave. *)
Definition hollow_loader : list Batch := [([], [], Exact.aux 0 2)].
Definition hollow_losses : list (Q * nat) :=
  Eval vm_compute in
    match train_pass (set_training true Exact.model, 0) hollow_loader with
    | Ok (obs, _) => obs
    | Raise _ => []
    end.
Definition hollow_end : CNN * nat :=
  Eval vm_compute in
    match train_pass (set_training true Exact.model, 0) hollow_loader with
    | Ok (_, s) => s
    | Raise _ => (Exact.model, 0)
    end.
Definition hollow_results : list (list Q * Q) :=
  Eval vm_compute in
    map (fun b : Batch =>
           match forward (set_training false Exact.model) b.1.1 (Some b.2) with
           | Ok outputs =>
               (outputs, match criterion outputs b.1.2 with Ok l => l | Raise _ => 0%Q end)
           | Raise _ => ([], 0%Q)
           end) hollow_loader.

(** The predictions in evaluation mode on the batch of two images. *)
Definition outputs : list Q :=
  Eval vm_compute in
    match forward (set_training false Exact.model) Exact.images (Some (Exact.aux 2 2)) with
    | Ok outputs => outputs
    | Raise _ => []
    end.

(** Two batches to stack, their embeddings and auxiliary vectors, and
    the predictions in training mode on each. *)
Definition part1 : list Image := Exact.images.
Definition part2 : list Image := [5]%Q.
Definition emb1 : Tensor2 64 := mkTensor2 (map (replicate 64) part1).
Definition emb2 : Tensor2 64 := mkTensor2 (map (replicate 64) part2).
Definition aux1 : Tensor2 2 := mkTensor2 [[0; 1]; [1; 2]]%Q.
Definition aux2 : Tensor2 2 := mkTensor2 [[7; 9]]%Q.
Definition out1 : list Q :=
  Eval vm_compute in
    match forward Exact.model part1 (Some (mkDyn aux1)) with
    | Ok outputs => outputs
    | Raise _ => []
    end.
Definition out2 : list Q :=
  Eval vm_compute in
    match forward Exact.model part2 (Some (mkDyn aux2)) with
    | Ok outputs => outputs
    | Raise _ => []
    end.
End ExactEdges.

(** ** The hand-written backbone over the exact rationals *)
Module ExactStack.
#[local] Existing Instance Exact.scalars.

Definition conv_scalars : ConvScalars := {|
  t_max x y := if Qle_bool x y then y else x;
  t_mean xs := Qred (Exact.Qsum xs / inject_Z (Z.of_nat (length xs)));
  init_kernel _ _ _ _ _ := (1 # 8)%Q;
|}.
#[local] Existing Instance conv_scalars.

(** A stack after training: the layout of [simple_cnn_init], other
    kernels. *)
Definition trained : SimpleCNN :=
  mkSimpleCNN
    (mkConv2d 3 16 3 1 1 (fun o c di dj => inject_Z (Z.of_nat (o + c + di + dj))) (fun _ => 1%Q))
    (mkConv2d 16 32 3 1 1 (fun _ _ _ _ => (1 # 3)%Q) (fun o => inject_Z (Z.of_nat o)))
    (mkConv2d 32 64 3 1 1 (fun _ _ _ _ => (1 # 5)%Q) (fun _ => 0%Q)).

(** A batch of two pictures of 3 channels, 5 rows and 4 columns, a batch
    of one, and what the trained stack returns on each. *)
Definition pictures : Tensor4 :=
  tabulate4 2 3 5 4 (fun b c i j => inject_Z (Z.of_nat (b + c + i + j))).
Definition picture : Tensor4 :=
  tabulate4 1 3 5 4 (fun b c i j => inject_Z (Z.of_nat (c * i + j))).
Definition pictures_emb : DynTensor2 :=
  Eval vm_compute in
    match simple_cnn_forward trained pictures with
    | Ok emb => emb
    | Raise _ => @mkDyn _ 0 (mkTensor2 [])
    end.
Definition picture_emb : DynTensor2 :=
  Eval vm_compute in
    match simple_cnn_forward trained picture with
    | Ok emb => emb
    | Raise _ => @mkDyn _ 0 (mkTensor2 [])
    end.

(** The model on the stack, for pictures of 3 channels, 4 rows and 4
    columns; no pretrained weights are at hand. *)
Definition vision : Vision :=
  stack_vision 3 4 4 unit tt tt
    (fun _ _ _ => Raise (RuntimeError "pretrained weights are not available")).
#[local] Existing Instance vision.

Definition model : CNN :=
  mkCNN "simple_cnn" true true simple_cnn_stack (nn_Linear "reduce.0" 64 128)
    (Some (nn_Linear "param_fc_2.0" 2 16, nn_Linear "param_fc_2.2" 16 64))
    (Some (nn_Linear "param_fc_3.0" 3 16, nn_Linear "param_fc_3.2" 16 64))
    (nn_Linear "fc1.0" (128 + 64) 64) (nn_Linear "fc2" 64 1).

(** Two batches of such pictures with auxiliary vectors of width 3, and
    the predictions of the model on each. *)
Definition shots : list Image :=
  data4 (tabulate4 2 3 4 4 (fun b c i j => inject_Z (Z.of_nat (b + c + i + j)))).
Definition shot : list Image :=
  data4 (tabulate4 1 3 4 4 (fun b c i j => inject_Z (Z.of_nat (c * i + j)))).
Definition shots_aux : Tensor2 3 := mkTensor2 [[0; 1; 2]; [1; 2; 3]]%Q.
Definition shot_aux : Tensor2 3 := mkTensor2 [[4; 6; 8]]%Q.
Definition shots_out : list Q :=
  Eval vm_compute in
    match forward model shots (Some (mkDyn shots_aux)) with
    | Ok outputs => outputs
    | Raise _ => []
    end.
Definition shot_out : list Q :=
  Eval vm_compute in
    match forward model shot (Some (mkDyn shot_aux)) with
    | Ok outputs => outputs
    | Raise _ => []
    end.

(** The collaborators of the loops for this model, as for the sample
    model above: mean squared error, mean absolute error, a stand-in for
    a gradient step that moves the bias of the last layer towards the mean
    label and counts the steps taken, and a working directory without
    subdirectories. *)
Definition step (model : CNN) (steps : nat)
    (inputs : list Image) (labels : list Q) (extra_params : DynTensor2) : CNN * nat :=
  let b := Qred (Exact.Qsum labels / inject_Z (Z.of_nat (length labels))) in
  (mkCNN (model_type model) (use_extra_params model) (training model)
     (feature_extractor model) (reduce model) (param_fc_2 model)
     (param_fc_3 model) (fc1 model)
     (mkLinear 64 (weight (fc2 model))
        (fun j => Qred ((bias (fc2 model) j + b) / 2))),
   Datatypes.S steps).

Definition learning : Learning := {|
  criterion := Exact.mse;
  Optimizer := nat;
  optimizer_update := step;
  mean_absolute_error := Exact.mae;
  open_error := Exact.directory;
  open_documented := Exact.directory_documented;
|}.
#[local] Existing Instance learning.

(** A labelled loader whose second batch has auxiliary vectors of width
    4, the batch before it alone, and what the step on that batch
    observes and leaves. *)
Definition accepted : list Batch := [(shots, [3; 4], mkDyn shots_aux)]%Q.
Definition refused_loader : list Batch :=
  (accepted ++ (shot, [1], Exact.aux 1 4) :: [(shot, [2], mkDyn shot_aux)])%Q.
Definition accepted_losses : list (Q * nat) :=
  Eval vm_compute in
    match train_pass (set_training true model, 0) accepted with
    | Ok (obs, _) => obs
    | Raise _ => []
    end.
Definition accepted_end : CNN * nat :=
  Eval vm_compute in
    match train_pass (set_training true model, 0) accepted with
    | Ok (_, s) => s
    | Raise _ => (model, 0)
    end.
End ExactStack.
(** ** Running the monad *)
Section Run.
Context {S : Type}.

Lemma run_bind {A B} (m : M S A) (k : A → M S B) s :
  (m ≫= k) s = match m s with
               | (Ok a, s') => k a s'
               | (Raise e, s') => (Raise e, s')
               end.
Proof. reflexivity. Qed.

Lemma run_lift_bind {A B} (r : Result A) (k : A → M S B) s :
  (lift r ≫= k) s = match r with
                    | Ok a => k a s
                    | Raise e => (Raise e, s)
                    end.
Proof. rewrite run_bind. unfold lift. by destruct r. Qed.

Lemma run_get_bind {B} (k : S → M S B) s : (get ≫= k) s = k s s.
Proof. reflexivity. Qed.

Lemma run_put_bind {B} (k : unit → M S B) s' s : (put s' ≫= k) s = k tt s'.
Proof. reflexivity. Qed.

Lemma run_ret {A} (a : A) (s : S) : mret (M:=M S) a s = (Ok a, s).
Proof. reflexivity. Qed.

(** A loop whose body reads the state but never writes it is a pure loop
    at that state. *)
Lemma for_each_pure {X A} (body : A → X → M S A) (f : A → X → Result A) s :
  (∀ acc x, body acc x s = (f acc x, s)) →
  ∀ xs acc, for_each body xs acc s = (for_each_r f xs acc, s).
Proof.
  intros Hbody. induction xs as [|x xs IH]; intros acc; [done|].
  cbn [for_each for_each_r]. rewrite run_bind, Hbody.
  destruct (f acc x) as [acc'|e]; [apply IH | done].
Qed.
End Run.

Lemma for_each_r_ext {X A} (f g : A → X → Result A) :
  (∀ acc x, f acc x = g acc x) →
  ∀ xs acc, for_each_r f xs acc = for_each_r g xs acc.
Proof.
  intros Hfg. induction xs as [|x xs IH]; intros acc; [done|].
  cbn [for_each_r]. rewrite Hfg. destruct (g acc x); [apply IH | done].
Qed.

Lemma for_each_r_app {X A} (f : A → X → Result A) xs ys acc :
  for_each_r f (xs ++ ys) acc = (acc' ← for_each_r f xs acc; for_each_r f ys acc').
Proof.
  revert acc. induction xs as [|x xs IH]; intros acc; [done|].
  cbn [for_each_r app]. destruct (f acc x) as [acc'|e]; [apply IH | done].
Qed.

(** ** The layers: shapes *)
Section LayerFacts.
Context `{Scalars}.

Lemma Linear_forward_ok {o c} (l : Linear o) (x : Tensor2 c) :
  c = in_features l →
  ∃ y, Linear_forward l x = Ok y ∧ shape0 y = shape0 x ∧
       Forall (fun row => length row = o) (rows y).
Proof.
  intros ->. unfold Linear_forward. rewrite Nat.eqb_refl.
  eexists; split; [done|]. unfold shape0; cbn. split.
  - by rewrite length_map.
  - apply Forall_forall. intros row [r [-> _]]%list_elem_of_fmap.
    by rewrite length_map, length_seq.
Qed.

Lemma Linear_forward_width {o c} (l : Linear o) (x : Tensor2 c) :
  c ≠ in_features l → ∃ msg, Linear_forward l x = Raise (RuntimeError msg).
Proof.
  intros Hc. unfold Linear_forward.
  destruct (Nat.eqb_spec c (in_features l)); [done | eauto].
Qed.

Lemma ReLU_shape {c} (x : Tensor2 c) n :
  Forall (fun row => length row = n) (rows x) →
  shape0 (ReLU x) = shape0 x ∧ Forall (fun row => length row = n) (rows (ReLU x)).
Proof.
  intros Hx. unfold shape0, ReLU; cbn. rewrite length_map. split; [done|].
  apply Forall_fmap. eapply Forall_impl; [exact Hx|].
  intros row Hrow. cbn. by rewrite length_map.
Qed.

Lemma Linear_ReLU_ok {o c} (l : Linear o) (x : Tensor2 c) :
  c = in_features l →
  ∃ y, Linear_ReLU l x = Ok y ∧ shape0 y = shape0 x ∧
       Forall (fun row => length row = o) (rows y).
Proof.
  intros Hc. destruct (Linear_forward_ok l x Hc) as (y & Hy & Hs & Hw).
  unfold Linear_ReLU. rewrite Hy. cbn. eexists; split; [done|].
  destruct (ReLU_shape y o Hw) as [Hs' Hw']. split; congruence.
Qed.

Lemma Linear_ReLU_x2_ok {h o c} (ls : Linear h * Linear o) (x : Tensor2 c) :
  c = in_features ls.1 → h = in_features ls.2 →
  ∃ y, Linear_ReLU_x2 ls x = Ok y ∧ shape0 y = shape0 x.
Proof.
  intros Hc Hh. destruct (Linear_ReLU_ok ls.1 x Hc) as (y & Hy & Hs & _).
  destruct (Linear_ReLU_ok ls.2 y Hh) as (z & Hz & Hs' & _).
  unfold Linear_ReLU_x2. rewrite Hy. cbn. rewrite Hz. exists z. split; congruence.
Qed.

Lemma cat1_ok {a b} (x : Tensor2 a) (p : Tensor2 b) :
  shape0 x = shape0 p →
  ∃ y, cat1 x p = Ok y ∧ shape0 y = shape0 x.
Proof.
  intros Hs. unfold cat1. rewrite Hs, Nat.eqb_refl. eexists; split; [done|].
  unfold shape0 in *; cbn. rewrite length_zip_with. lia.
Qed.

Lemma length_squeeze1 (t : Tensor2 1) :
  Forall (fun row => length row = 1) (rows t) → length (squeeze1 t) = shape0 t.
Proof.
  unfold squeeze1, shape0. induction 1 as [|row rs Hrow _ IH]; [done|].
  cbn. rewrite length_app, IH, Hrow. done.
Qed.
End LayerFacts.

(** ** The model: construction and inference *)
Section ModelFacts.
Context `{Vision}.

(** The regression head on the fused features: what [forward] does from
    [fc1] on. *)
Lemma head_ok (m : CNN) (x : DynTensor2) :
  shape1 x = in_features (fc1 m) → in_features (fc2 m) = 64 →
  ∃ out,
    (out ← Linear_ReLU (fc1 m) (tensor x);
     out ← Linear_forward (fc2 m) out;
     Ok (squeeze1 out)) = Ok out ∧
    length out = shape0 (tensor x).
Proof.
  intros H1 H2.
  destruct (Linear_ReLU_ok (fc1 m) (tensor x) H1) as (y & Hy & Hs & _).
  destruct (Linear_forward_ok (fc2 m) y (eq_sym H2)) as (z & Hz & Hs' & Hw).
  rewrite Hy. cbn. rewrite Hz. cbn. eexists; split; [done|].
  rewrite (length_squeeze1 z Hw). unfold shape0 in *. lia.
Qed.

(** What [__init__] builds when it returns. *)
Lemma CNN_init_Ok model_type use m :
  CNN_init model_type use = Ok m →
  ∃ fe d,
    (model_type = "resnet18" ∧ fe = resnet18_headless ∧ d = 512 ∨
     model_type = "efficientnet_b0" ∧ fe = efficientnet_b0_headless ∧ d = 1280 ∨
     model_type = "simple_cnn" ∧ fe = simple_cnn_stack ∧ d = 64) ∧
    m = if use then
          mkCNN model_type true true fe (nn_Linear "reduce.0" d 128)
            (Some (nn_Linear "param_fc_2.0" 2 16, nn_Linear "param_fc_2.2" 16 64))
            (Some (nn_Linear "param_fc_3.0" 3 16, nn_Linear "param_fc_3.2" 16 64))
            (nn_Linear "fc1.0" (128 + 64) 64) (nn_Linear "fc2" 64 1)
        else
          mkCNN model_type false true fe (nn_Linear "reduce.0" d 128) None None
            (nn_Linear "fc1.0" 128 64) (nn_Linear "fc2" 64 1).
Proof.
  unfold CNN_init.
  destruct (String.eqb_spec model_type "resnet18") as [->|_].
  { cbn. intros Hm. exists resnet18_headless, 512. split; [auto|].
    destruct use; congruence. }
  destruct (String.eqb_spec model_type "efficientnet_b0") as [->|_].
  { cbn. intros Hm. exists efficientnet_b0_headless, 1280. split; [auto|].
    destruct use; congruence. }
  destruct (String.eqb_spec model_type "simple_cnn") as [->|_].
  { cbn. intros Hm. exists simple_cnn_stack, 64. split; [auto 6|].
    destruct use; congruence. }
  cbn. discriminate.
Qed.

(** Inference with auxiliary parameters, for any model with the layer
    widths of [__init__], in either mode. *)
Lemma forward_enabled (m : CNN) (x : list Image) (emb : DynTensor2) :
  use_extra_params m = true →
  in_features (fc1 m) = 128 + 64 → in_features (fc2 m) = 64 →
  backbone_apply (feature_extractor m) (training m) x = Ok emb →
  shape1 emb = in_features (reduce m) →
  shape0 (tensor emb) = length x →
  forward m x None = Raise (ValueError "extra_params is required but not provided.") ∧
  (∀ e, shape1 e ≠ 2 → shape1 e ≠ 3 →
        forward m x (Some e) = Raise (ValueError "error - extra_params shape")) ∧
  (∀ e enc,
      shape1 e = 2 ∧ param_fc_2 m = Some enc ∨ shape1 e = 3 ∧ param_fc_3 m = Some enc →
      in_features enc.1 = shape1 e → in_features enc.2 = 16 →
      shape0 (tensor e) = length x →
      ∃ out, forward m x (Some e) = Ok out ∧ length out = length x).
Proof.
  intros Huse Hfc1 Hfc2 Hemb Hd Hn.
  destruct (Linear_ReLU_ok (reduce m) (tensor emb) Hd) as (r & Hr & Hs & _).
  unfold forward. rewrite Hemb, Huse. cbn. rewrite Hr. cbn.
  split; [done|]. split.
  - intros e H2 H3.
    destruct (Nat.eqb_spec (shape1 e) 2); [done|].
    destruct (Nat.eqb_spec (shape1 e) 3); done.
  - intros e enc Hsel He1 He2 Hrows.
    destruct (Linear_ReLU_x2_ok enc (tensor e) (eq_sym He1) (eq_sym He2))
      as (p & Hp & Hps).
    assert (Hp' :
      (if shape1 e =? 2 then
         param_fc_2 ← getattr "param_fc_2" (param_fc_2 m);
         Linear_ReLU_x2 param_fc_2 (tensor e)
       else if shape1 e =? 3 then
         param_fc_3 ← getattr "param_fc_3" (param_fc_3 m);
         Linear_ReLU_x2 param_fc_3 (tensor e)
       else Raise (ValueError "error - extra_params shape")) = Ok p).
    { destruct Hsel as [[Hw Henc]|[Hw Henc]].
      - apply Nat.eqb_eq in Hw as ->. by rewrite Henc.
      - destruct (Nat.eqb_spec (shape1 e) 2) as [Hw2|_]; [congruence|].
        apply Nat.eqb_eq in Hw as ->. by rewrite Henc. }
    rewrite Hp'. cbn.
    destruct (cat1_ok r p) as (c & Hc & Hcs); [by rewrite Hs, Hn, Hps, Hrows|].
    rewrite Hc. cbn.
    destruct (head_ok m (mkDyn c)) as (out & Hout & Hlen); [by cbn | done |].
    cbn in Hout. rewrite Hout. exists out. split; [done|].
    rewrite Hlen. change (shape0 c = length x). by rewrite Hcs, Hs, Hn.
Qed.

(** Inference without auxiliary parameters: the argument is never read. *)
Lemma forward_disabled (m : CNN) (x : list Image) (extra : option DynTensor2) :
  use_extra_params m = false → forward m x extra = forward m x None.
Proof. intros Huse. unfold forward. by rewrite Huse. Qed.

Lemma forward_disabled_ok (m : CNN) (x : list Image) (emb : DynTensor2) :
  use_extra_params m = false →
  in_features (fc1 m) = 128 → in_features (fc2 m) = 64 →
  backbone_apply (feature_extractor m) (training m) x = Ok emb →
  shape1 emb = in_features (reduce m) →
  shape0 (tensor emb) = length x →
  ∃ out, forward m x None = Ok out ∧ length out = length x.
Proof.
  intros Huse Hfc1 Hfc2 Hemb Hd Hn.
  destruct (Linear_ReLU_ok (reduce m) (tensor emb) Hd) as (r & Hr & Hs & _).
  unfold forward. rewrite Hemb, Huse. cbn. rewrite Hr. cbn.
  destruct (head_ok m (mkDyn r)) as (out & Hout & Hlen); [by cbn | done |].
  cbn in Hout. rewrite Hout. exists out. split; [done|].
  rewrite Hlen. change (shape0 r = length x). by rewrite Hs, Hn.
Qed.
End ModelFacts.

(** ** Claims on construction and inference *)
Section ModelClaims.
Context `{Vision}.

(** C3. Construction succeeds exactly for the backbone names resnet18,
    efficientnet_b0 and simple_cnn, with the width of the embedding that
    enters the reduction layer 512, 1280 and 64; every other name raises
    the ValueError that reports the unsupported model type. *)
Theorem CNN_init_backbone_names :
  (∀ use, ∃ m, CNN_init "resnet18" use = Ok m ∧
               feature_extractor m = resnet18_headless ∧
               in_features (reduce m) = 512) ∧
  (∀ use, ∃ m, CNN_init "efficientnet_b0" use = Ok m ∧
               feature_extractor m = efficientnet_b0_headless ∧
               in_features (reduce m) = 1280) ∧
  (∀ use, ∃ m, CNN_init "simple_cnn" use = Ok m ∧
               feature_extractor m = simple_cnn_stack ∧
               in_features (reduce m) = 64) ∧
  (∀ name use,
      name ∈ ["resnet18"; "efficientnet_b0"; "simple_cnn"] ∨
      CNN_init name use = Raise (ValueError ("Unsupported model type: " +:+ name))).
Proof.
  repeat split.
  - intros []; eexists; (split; [reflexivity|]); done.
  - intros []; eexists; (split; [reflexivity|]); done.
  - intros []; eexists; (split; [reflexivity|]); done.
  - intros name use. unfold CNN_init.
    destruct (String.eqb_spec name "resnet18") as [->|_]; [left; set_solver|].
    destruct (String.eqb_spec name "efficientnet_b0") as [->|_]; [left; set_solver|].
    destruct (String.eqb_spec name "simple_cnn") as [->|_]; [left; set_solver|].
    by right.
Qed.

(** C1. A model built with auxiliary parameters enabled, in either mode,
    on an image batch its backbone embeds (one row of the reduction
    layer's input width per image): without an auxiliary vector forward
    raises the required-input ValueError; with one whose width is neither
    2 nor 3 it raises the shape ValueError; with one of width 2 or 3, a
    row per image, it returns one scalar per image. *)
Theorem forward_extra_params_enabled
    (model_type : string) (m0 : CNN) (mode : bool) (x : list Image) (emb : DynTensor2) :
  CNN_init model_type true = Ok m0 →
  backbone_apply (feature_extractor m0) mode x = Ok emb →
  shape1 emb = in_features (reduce m0) →
  shape0 (tensor emb) = length x →
  forward (set_training mode m0) x None
    = Raise (ValueError "extra_params is required but not provided.") ∧
  (∀ e, shape1 e ≠ 2 → shape1 e ≠ 3 →
        forward (set_training mode m0) x (Some e)
          = Raise (ValueError "error - extra_params shape")) ∧
  (∀ e, shape1 e = 2 ∨ shape1 e = 3 → shape0 (tensor e) = length x →
        ∃ out, forward (set_training mode m0) x (Some e) = Ok out ∧
               length out = length x).
Proof.
  intros (fe & d & _ & Hm0)%CNN_init_Ok Hemb Hd Hn.
  destruct (forward_enabled (set_training mode m0) x emb)
    as (Hnone & Hshape & Hok); [by subst m0..|].
  split; [exact Hnone|]. split; [exact Hshape|].
  subst m0. intros e [Hw|Hw] Hrows.
  - apply (Hok e (nn_Linear "param_fc_2.0" 2 16, nn_Linear "param_fc_2.2" 16 64));
      [left | | |]; done.
  - apply (Hok e (nn_Linear "param_fc_3.0" 3 16, nn_Linear "param_fc_3.2" 16 64));
      [right | | |]; done.
Qed.


End ModelClaims.

(** ** The training and validation loops *)
Section LoopFacts.
Context `{Learning}.

Lemma train_pass_samples loader s obs s' :
  train_pass s loader = Ok (obs, s') → sum_list (map snd obs) = dataset_size loader.
Proof.
  unfold dataset_size. revert s obs.
  induction loader as [|[[inputs labels] extra] rest IH]; intros s obs; cbn.
  { by intros [= <- _]. }
  destruct (forward s.1 inputs (Some extra)) as [outputs|]; [cbn|done].
  destruct (criterion outputs labels) as [loss|]; [cbn|done].
  destruct (train_pass _ rest) as [[obs' s'']|] eqn:Hrest; [cbn|done].
  intros [= <- ->]. cbn. by rewrite (IH _ _ Hrest).
Qed.

(** The loop of [train] from any value of its two accumulators. *)
Lemma train_loop loader s obs s' total_loss total :
  train_pass s loader = Ok (obs, s') →
  for_each (fun '(total_loss, total) '(inputs, labels, extra_params) =>
      '(model, optimizer) ← get;
      outputs ← lift (forward model inputs (Some extra_params));
      loss ← lift (criterion outputs labels);
      put (optimizer_update model optimizer inputs labels extra_params);;
      mret (py_add total_loss (py_mul loss (py_float (length inputs))),
            total + length inputs))
    loader (total_loss, total) s
  = (Ok (fold_left (fun acc ln => py_add acc (py_mul ln.1 (py_float ln.2)))
           obs total_loss,
         total + sum_list (map snd obs)), s').
Proof.
  revert s obs total_loss total.
  induction loader as [|[[inputs labels] extra] rest IH];
    intros [model optimizer] obs total_loss total; cbn [train_pass for_each].
  { intros [= <- <-]. cbn. by rewrite Nat.add_0_r. }
  rewrite run_bind, run_get_bind, run_lift_bind. cbn [fst snd].
  destruct (forward model inputs (Some extra)) as [outputs|]; [cbn|done].
  rewrite run_lift_bind.
  destruct (criterion outputs labels) as [loss|]; [cbn|done].
  rewrite run_put_bind, run_ret.
  destruct (train_pass _ rest) as [[obs' s'']|] eqn:Hrest; [cbn|done].
  intros [= <- <-]. rewrite (IH _ _ _ _ Hrest). cbn. by rewrite Nat.add_assoc.
Qed.

(** A pass runs to its end whenever some property of the model and
    optimizer holds at the start, is kept by every optimizer step, and
    makes the model and the criterion accept every batch of the loader. *)
Lemma train_pass_exists (I : CNN * Optimizer → Prop) loader :
  (∀ model optimizer inputs labels extra_params,
      I (model, optimizer) → (inputs, labels, extra_params) ∈ loader →
      I (optimizer_update model optimizer inputs labels extra_params) ∧
      ∃ outputs loss, forward model inputs (Some extra_params) = Ok outputs ∧
                      criterion outputs labels = Ok loss) →
  ∀ s, I s → ∃ obs s', train_pass s loader = Ok (obs, s').
Proof.
  induction loader as [|[[inputs labels] extra] rest IH]; intros Hstep s Hs.
  - by exists [], s.
  - destruct s as [model optimizer].
    assert (Hin : (inputs, labels, extra) ∈ (inputs, labels, extra) :: rest)
      by apply list_elem_of_here.
    pose proof (Hstep model optimizer inputs labels extra Hs Hin) as Hhere.
    destruct Hhere as (HI & outputs & loss & Hf & Hc).
    pose proof (IH (fun m o i l e Hi Hin' =>
                      Hstep m o i l e Hi (list_elem_of_further _ _ _ Hin')) _ HI)
      as (obs & s' & Hpass).
    exists ((loss, length inputs) :: obs), s'.
    cbn. rewrite Hf. cbn. rewrite Hc. cbn. by rewrite Hpass.
Qed.

(** The loop of [validate], which leaves the model as it is. *)
Lemma validate_loop model loader rs total_loss total all_labels all_outputs :
  Forall2 (evaluated model) loader rs →
  for_each (fun '(total_loss, total, all_labels, all_outputs)
                '(inputs, labels, extra_params) =>
      model ← get;
      outputs ← lift (forward model inputs (Some extra_params));
      loss ← lift (criterion outputs labels);
      mret (py_add total_loss (py_mul loss (py_float (length inputs))),
            total + length inputs,
            all_labels ++ labels,
            all_outputs ++ outputs))
    loader (total_loss, total, all_labels, all_outputs) model
  = (Ok (fold_left (fun acc ln => py_add acc (py_mul ln.1 (py_float ln.2)))
           (zip (map snd rs) (map (fun b => length b.1.1) loader)) total_loss,
         total + dataset_size loader,
         all_labels ++ concat (map (fun b => b.1.2) loader),
         all_outputs ++ concat (map fst rs)), model).
Proof.
  intros Hrs. revert total_loss total all_labels all_outputs.
  induction Hrs as [|[[inputs labels] extra] [outputs loss] loader rs [Hfwd Hloss] _ IH];
    intros total_loss total all_labels all_outputs.
  - cbn. by rewrite Nat.add_0_r, !app_nil_r.
  - cbn in Hfwd, Hloss. cbn [for_each]. rewrite run_bind, run_get_bind.
    rewrite run_lift_bind, Hfwd, run_lift_bind, Hloss, run_ret.
    rewrite IH. cbn. unfold dataset_size. cbn.
    by rewrite Nat.add_assoc, <- !app_assoc.
Qed.

(** Whatever the loader holds, and also when a batch is refused,
    [validate] only switches the model to evaluation mode. *)
Lemma validate_keeps_parameters model loader :
  (validate loader model).2 = set_training false model ∧
  parameters (validate loader model).2 = parameters model.
Proof.
  assert (Hstate : (validate loader model).2 = set_training false model).
  { unfold validate. rewrite run_get_bind, run_put_bind, run_bind.
    erewrite (for_each_pure _ (fun '(total_loss, total, all_labels, all_outputs)
                                   '(inputs, labels, extra_params) =>
                outputs ← forward (set_training false model) inputs (Some extra_params);
                loss ← criterion outputs labels;
                Ok (py_add total_loss (py_mul loss (py_float (length inputs))),
                    total + length inputs,
                    all_labels ++ labels,
                    all_outputs ++ outputs))).
    2: { intros [[[total_loss total] all_labels] all_outputs] [[inputs labels] extra].
         rewrite run_get_bind, run_lift_bind.
         destruct (forward _ inputs (Some extra)) as [outputs|]; [cbn|done].
         rewrite run_lift_bind. by destruct (criterion outputs labels). }
    match goal with
    | |- context [for_each_r ?f loader ?acc] =>
        destruct (for_each_r f loader acc)
          as [[[[total_loss total] all_labels] all_outputs]|]; [|done]
    end.
    rewrite run_lift_bind. destruct (py_truediv total_loss total); [|done].
    rewrite run_lift_bind. by destruct (mean_absolute_error all_labels all_outputs). }
  split; [exact Hstate|]. by rewrite Hstate.
Qed.

Lemma sum_list_snd_zip {A} (xs : list A) (ns : list nat) :
  length xs = length ns → sum_list (map snd (zip xs ns)) = sum_list ns.
Proof.
  revert ns. induction xs as [|x xs IH]; intros [|n ns] Hlen; try done.
  cbn. rewrite IH; [done|]. cbn in Hlen. lia.
Qed.
End LoopFacts.

Section LoopClaims.
Context `{Learning}.

(** C4. On a dataset with at least one sample, where the model and the
    criterion accept every batch in its turn, one call of [train] returns
    the size-weighted mean loss of the pass: the sum over the batches of
    loss times batch size, divided by the number of samples seen; the
    model and the optimizer are left as the last step made them. *)
Theorem train_returns_weighted_mean
    (model : CNN) (optimizer : Optimizer) (loader : list Batch)
    (obs : list (float * nat)) (s' : CNN * Optimizer) :
  train_pass (set_training true model, optimizer) loader = Ok (obs, s') →
  0 < dataset_size loader →
  train loader (model, optimizer) = (Ok (weighted_mean obs), s').
Proof.
  intros Hpass Hsize. unfold train. rewrite run_get_bind, run_put_bind, run_bind.
  rewrite (train_loop _ _ _ _ _ _ Hpass).
  pose proof (train_pass_samples _ _ _ _ Hpass) as Hn.
  cbn. rewrite run_lift_bind. unfold py_truediv, weighted_mean.
  rewrite Hn. destruct (Nat.eqb_spec (dataset_size loader) 0); [lia|]. done.
Qed.

(** C5. On a dataset with at least one sample, where the model in
    evaluation mode and the criterion accept every batch, [validate]
    returns the size-weighted mean loss together with the mean absolute
    error of all labels against all predictions of the pass, and the
    model it leaves has the parameters it started with. *)
Theorem validate_returns_mean_loss_and_mae
    (model : CNN) (loader : list Batch) (rs : list (list float * float)) (mae : float) :
  Forall2 (evaluated (set_training false model)) loader rs →
  0 < dataset_size loader →
  mean_absolute_error (concat (map (fun b => b.1.2) loader)) (concat (map fst rs))
    = Ok mae →
  ∃ model',
    validate loader model
      = (Ok (weighted_mean (zip (map snd rs) (map (fun b => length b.1.1) loader)), mae),
         model') ∧
    parameters model' = parameters model.
Proof.
  intros Hrs Hsize Hmae. exists (set_training false model). split; [|done].
  unfold validate. rewrite run_get_bind, run_put_bind, run_bind.
  rewrite (validate_loop _ _ _ _ _ _ _ Hrs). cbn.
  rewrite run_lift_bind. unfold py_truediv, weighted_mean.
  rewrite sum_list_snd_zip
    by (rewrite !length_map; symmetry; exact (Forall2_length _ _ _ Hrs)).
  fold (dataset_size loader).
  destruct (Nat.eqb_spec (dataset_size loader) 0); [lia|].
  rewrite run_lift_bind, Hmae. done.
Qed.

(** C10. On a loader that yields no batch, [train] and [validate] both
    raise ZeroDivisionError, at the division of the accumulated loss by
    the sample count 0. *)
Theorem train_validate_empty_loader (model : CNN) (optimizer : Optimizer) :
  train [] (model, optimizer)
    = (Raise ZeroDivisionError, (set_training true model, optimizer)) ∧
  validate [] model = (Raise ZeroDivisionError, set_training false model).
Proof. split; reflexivity. Qed.
End LoopClaims.

(** ** The test loop *)
Section TestFacts.
Context `{Learning}.

(** *** The reference dictionaries *)

Lemma dict_zip_fold_None (kvs : list (string * float)) (d : gmap string float) k :
  fold_left (fun d kv => <[kv.1 := kv.2]> d) kvs d !! k = None ↔
  d !! k = None ∧ k ∉ (kvs.*1).
Proof.
  revert d. induction kvs as [|[k' v] kvs IH]; intros d; cbn.
  - split; [|tauto]. intros Hd. split; [done|]. apply not_elem_of_nil.
  - rewrite IH, lookup_insert_None, not_elem_of_cons. cbn. intuition congruence.
Qed.

(** A name is missing from a dictionary of [test] exactly when it is not
    in the Image column of the table. *)
Lemma dict_zip_lookup_None (df : list Row) (column : Row → float) k :
  dict_zip (map col_Image df) (map column df) !! k = None ↔ k ∉ map col_Image df.
Proof.
  unfold dict_zip. rewrite dict_zip_fold_None, lookup_empty.
  rewrite fst_zip by (by rewrite !length_map). tauto.
Qed.

(** *** One sample *)

(** Whatever the target string, the inner loop body reads the dictionary
    of [target_label], names the field [target_column] and rounds to
    [record_digits] and [metric_digits]. *)
Lemma sample_step_policy df target predictions y_true y_pred name pred :
  sample_step df target (predictions, y_true, y_pred) (name, pred) =
    (v ← getitem (dict_zip (map col_Image df) (map (target_label target) df)) name;
     Ok (predictions ++
           [sample_record (target_column target) (record_digits target) (name, pred) v],
         y_true ++ [v],
         y_pred ++ [py_round pred (metric_digits target)])).
Proof.
  unfold sample_step, test_sample, target_label, target_column, record_digits,
    metric_digits, sample_record.
  destruct (String.eqb target "mag");
    [|destruct (String.eqb target "dep"); [|destruct (String.eqb target "lon")]];
    (destruct (getitem _ name); reflexivity).
Qed.

(** *** The samples of a pass *)

Lemma samples_loop_ok df target samples vs predictions y_true y_pred :
  Forall2 (fun s v =>
             dict_zip (map col_Image df) (map (target_label target) df) !! s.1 = Some v)
          samples vs →
  for_each_r (sample_step df target) samples (predictions, y_true, y_pred) =
    Ok (predictions ++
          zip_with (sample_record (target_column target) (record_digits target))
            samples vs,
        y_true ++ vs,
        y_pred ++ map (fun s => py_round s.2 (metric_digits target)) samples).
Proof.
  intros Hvs. revert predictions y_true y_pred.
  induction Hvs as [|[name pred] v samples vs Hv _ IH]; intros predictions y_true y_pred.
  - cbn. by rewrite !app_nil_r.
  - cbn [for_each_r]. rewrite sample_step_policy. unfold getitem.
    cbn in Hv. rewrite Hv. cbn. rewrite IH. by rewrite <- !app_assoc.
Qed.

Lemma samples_loop_absent df target samples acc :
  (∃ k, k ∈ (samples.*1) ∧ k ∉ (map col_Image df)) →
  ∃ k, k ∈ (samples.*1) ∧ (k ∉ map col_Image df) ∧
       for_each_r (sample_step df target) samples acc = Raise (KeyError k).
Proof.
  revert acc. induction samples as [|[name pred] samples IH]; intros acc (k & Hk & Habs).
  { cbn in Hk. by apply elem_of_nil in Hk. }
  destruct acc as [[predictions y_true] y_pred].
  cbn [for_each_r]. rewrite sample_step_policy. unfold getitem.
  destruct (dict_zip (map col_Image df) (map (target_label target) df) !! name)
    as [v|] eqn:Hname.
  - cbn. destruct (IH (predictions ++
        [sample_record (target_column target) (record_digits target) (name, pred) v],
        y_true ++ [v], y_pred ++ [py_round pred (metric_digits target)]))
      as (k' & Hk' & Habs' & Hrun).
    + exists k. split; [|done]. cbn in Hk. apply elem_of_cons in Hk as [->|Hk]; [|done].
      apply (proj2 (dict_zip_lookup_None df (target_label target) name)) in Habs.
      congruence.
    + exists k'. split; [cbn; by apply list_elem_of_further|]. done.
  - exists name. split; [cbn; apply list_elem_of_here|].
    split; [by apply (dict_zip_lookup_None df (target_label target))|]. done.
Qed.

Lemma samples_loop_shaped df target samples acc acc' :
  for_each_r (sample_step df target) samples acc = Ok acc' →
  Forall (shaped (target_column target)) acc.1.1 →
  Forall (shaped (target_column target)) acc'.1.1.
Proof.
  revert acc. induction samples as [|[name pred] samples IH]; intros acc.
  { cbn. by intros [= ->]. }
  destruct acc as [[predictions y_true] y_pred].
  cbn [for_each_r]. rewrite sample_step_policy.
  destruct (getitem _ name) as [v|e]; [|done]. cbn.
  intros Hrun Hacc. apply (IH _ Hrun). cbn.
  apply Forall_app. split; [done|]. apply Forall_singleton. by eexists _, _, _.
Qed.

(** *** The batches of a pass *)

Lemma collect_flat model df target loader outs acc :
  Forall2 (fun b out => forward model b.1.1 (Some b.2) = Ok out) loader outs →
  collect model df target loader acc =
    for_each_r (sample_step df target) (test_samples loader outs) acc.
Proof.
  intros Houts. revert acc. unfold collect, test_samples.
  induction Houts as [|b out loader outs Hout _ IH]; intros acc; [done|].
  cbn [for_each_r zip_with concat]. rewrite Hout. cbn.
  rewrite for_each_r_app.
  destruct (for_each_r (sample_step df target) (zip b.1.2 out) acc); [apply IH | done].
Qed.

Lemma collect_shaped model df target loader acc acc' :
  collect model df target loader acc = Ok acc' →
  Forall (shaped (target_column target)) acc.1.1 →
  Forall (shaped (target_column target)) acc'.1.1.
Proof.
  unfold collect. revert acc. induction loader as [|b loader IH]; intros acc.
  { cbn. by intros [= ->]. }
  cbn [for_each_r]. destruct (forward model b.1.1 (Some b.2)) as [out|e]; [|done].
  cbn. destruct (for_each_r (sample_step df target) (zip b.1.2 out) acc)
    as [acc1|e] eqn:Hinner; [|done].
  intros Hrun Hacc. apply (IH _ Hrun). by apply (samples_loop_shaped _ _ _ _ _ Hinner).
Qed.

Lemma test_samples_names loader outs :
  Forall2 (fun (b : TestBatch) (out : list float) => length out = length b.1.2)
          loader outs →
  (test_samples loader outs).*1 = concat (map (fun b => b.1.2) loader).
Proof.
  unfold test_samples. induction 1 as [|b out loader outs Hlen _ IH]; [done|].
  cbn. rewrite fmap_app, IH. f_equal. apply fst_zip. lia.
Qed.
End TestFacts.

Section TestOutcome.
Context `{Learning}.

(** *** Writing the result file *)

Lemma write_line_insert {S} name line lines (s : S)
    (files : gmap string (list (list cell))) :
  write_line name line (s, <[name := lines]> files)
    = (Ok tt, (s, <[name := lines ++ [line]]> files)).
Proof.
  unfold write_line. rewrite run_get_bind. cbn. unfold put.
  by rewrite alter_insert_eq.
Qed.

Lemma writerow_shaped {S} name column row lines (s : S)
    (files : gmap string (list (list cell))) :
  column ∈ ["Mag"; "Dep"; "Lon"; "Lat"] → shaped column row →
  writerow name ["id"; column; "prediction"] row (s, <[name := lines]> files)
    = (Ok tt, (s, <[name := lines ++ [map snd row]]> files)).
Proof.
  intros Hcol (n & v & p & ->). unfold writerow.
  repeat (apply elem_of_cons in Hcol as [->|Hcol]);
    [..|by apply elem_of_nil in Hcol]; cbn; apply write_line_insert.
Qed.

Lemma write_rows {S} name column rows lines (s : S)
    (files : gmap string (list (list cell))) :
  column ∈ ["Mag"; "Dep"; "Lon"; "Lat"] → Forall (shaped column) rows →
  for_each (fun _ row => writerow name ["id"; column; "prediction"] row) rows tt
    (s, <[name := lines]> files)
    = (Ok tt, (s, <[name := lines ++ map (map snd) rows]> files)).
Proof.
  intros Hcol Hrows. revert lines.
  induction Hrows as [|row rows Hrow _ IH]; intros lines.
  - cbn. by rewrite app_nil_r.
  - cbn [for_each]. rewrite run_bind, (writerow_shaped _ _ _ _ _ _ Hcol Hrow).
    rewrite IH. cbn. by rewrite <- app_assoc.
Qed.

Lemma target_column_cases target :
  target_column target ∈ ["Mag"; "Dep"; "Lon"; "Lat"].
Proof.
  unfold target_column.
  destruct (String.eqb target "mag");
    [|destruct (String.eqb target "dep"); [|destruct (String.eqb target "lon")]];
    set_solver.
Qed.

Lemma fieldnames_target target :
  (if String.eqb target "mag" then ["id"; "Mag"; "prediction"]
   else if String.eqb target "dep" then ["id"; "Dep"; "prediction"]
   else if String.eqb target "lon" then ["id"; "Lon"; "prediction"]
   else ["id"; "Lat"; "prediction"])
  = ["id"; target_column target; "prediction"].
Proof.
  unfold target_column.
  destruct (String.eqb target "mag");
    [|destruct (String.eqb target "dep"); [|destruct (String.eqb target "lon")]];
    reflexivity.
Qed.

Lemma test_outcome df loader target model files :
  test df loader target (model, files) =
    match collect (set_training false model) df target loader ([], [], []) with
    | Raise e => (Raise e, (set_training false model, files))
    | Ok (predictions, y_true, y_pred) =>
        match mean_absolute_error y_true y_pred with
        | Raise e => (Raise e, (set_training false model, files))
        | Ok mae =>
            match open_error (csv_name target (py_round mae 3)) with
            | Some e => (Raise e, (set_training false model, files))
            | None =>
                (Ok (py_round mae 3),
                 (set_training false model,
                  <[csv_name target (py_round mae 3) :=
                      map Str ["id"; target_column target; "prediction"]
                      :: map (map snd) predictions]> files))
            end
        end
    end.
Proof.
  unfold test. rewrite run_get_bind, run_put_bind, run_bind.
  erewrite (for_each_pure _ (fun acc b =>
              outputs ← forward (set_training false model) b.1.1 (Some b.2);
              for_each_r (sample_step df target) (zip b.1.2 outputs) acc)).
  2: { intros acc [[images names] extra]. rewrite run_get_bind, run_lift_bind. cbn.
       destruct (forward _ images (Some extra)); reflexivity. }
  fold (collect (set_training false model) df target loader ([], [], [])).
  destruct (collect (set_training false model) df target loader ([], [], []))
    as [[[predictions y_true] y_pred]|e] eqn:Hcollect; [|done].
  rewrite run_lift_bind. destruct (mean_absolute_error y_true y_pred) as [mae|e]; [|done].
  rewrite fieldnames_target. fold (csv_name target (py_round mae 3)).
  rewrite run_bind. unfold open_w at 1.
  destruct (open_error (csv_name target (py_round mae 3))) as [e|]; [done|].
  rewrite run_get_bind. cbn [put].
  rewrite run_bind. unfold writeheader. rewrite write_line_insert.
  rewrite run_bind, (write_rows _ (target_column target)).
  - reflexivity.
  - apply target_column_cases.
  - apply (collect_shaped _ _ _ _ _ _ Hcollect). constructor.
Qed.
End TestOutcome.

Section TestClaims.
Context `{Learning}.

Lemma lines_of_records column digits samples (vs : list float) :
  map (map snd) (zip_with (sample_record column digits) samples vs)
    = zip_with (sample_line digits) samples vs.
Proof.
  revert vs. induction samples as [|s samples IH]; intros [|v vs]; try done.
  cbn. by rewrite IH.
Qed.

Lemma documented_policy_Some target column label r q :
  documented_policy target = Some (column, label, r, q) →
  target_column target = column ∧ target_label target = label ∧
  record_digits target = r ∧ metric_digits target = q ∧
  ((target = "mag" ∨ target = "dep") ∧ r = 1%Z ∧ q = 1%Z ∨
   (target = "lon" ∨ target = "lat") ∧ r = 3%Z ∧ q = 2%Z).
Proof.
  unfold documented_policy, target_column, target_label, record_digits, metric_digits.
  repeat case_decide; subst; intros [= <- <- <- <-]; cbn; tauto.
Qed.

Lemma unknown_target_policy target :
  target ≠ "mag" → target ≠ "dep" → target ≠ "lon" →
  target_column target = "Lat" ∧ target_label target = col_Lat ∧
  record_digits target = 3%Z ∧ metric_digits target = 2%Z.
Proof.
  intros Hmag Hdep Hlon.
  unfold target_column, target_label, record_digits, metric_digits.
  destruct (String.eqb_spec target "mag"); [done|].
  destruct (String.eqb_spec target "dep"); [done|].
  destruct (String.eqb_spec target "lon"); done.
Qed.

Lemma collect_ext model df target target' loader acc :
  (∀ acc np, sample_step df target acc np = sample_step df target' acc np) →
  collect model df target loader acc = collect model df target' loader acc.
Proof.
  intros Hstep. unfold collect. apply for_each_r_ext. intros acc' b.
  destruct (forward model b.1.1 (Some b.2)); [|done]. cbn.
  by apply for_each_r_ext.
Qed.

(** A run whose batches the model accepts, whose identifiers all have
    their ground truth and whose metric is computed: it ends at the
    opening of the result file, with the error of [open] or with the
    lines of the policy that the branches of [test] apply to the target. *)
Lemma test_policy_run df loader target model files outs vs mae :
  Forall2 (fun b out => forward (set_training false model) b.1.1 (Some b.2) = Ok out)
          loader outs →
  Forall2 (fun s v =>
             dict_zip (map col_Image df) (map (target_label target) df) !! s.1 = Some v)
          (test_samples loader outs) vs →
  mean_absolute_error vs
    (map (fun s => py_round s.2 (metric_digits target)) (test_samples loader outs))
    = Ok mae →
  test df loader target (model, files) =
    match open_error (csv_name target (py_round mae 3)) with
    | Some e => (Raise e, (set_training false model, files))
    | None =>
        (Ok (py_round mae 3),
         (set_training false model,
          <[csv_name target (py_round mae 3) :=
              [Str "id"; Str (target_column target); Str "prediction"]
              :: zip_with (sample_line (record_digits target))
                   (test_samples loader outs) vs]> files))
    end.
Proof.
  intros Houts Hvs Hmae.
  rewrite test_outcome, (collect_flat _ _ _ _ _ _ Houts).
  rewrite (samples_loop_ok _ _ _ _ _ _ _ Hvs). cbn [app].
  rewrite Hmae. by rewrite lines_of_records.
Qed.

(** C6. For a documented target, when the model accepts every batch,
    every identifier has its ground truth and the metric is computed:
    the records of magnitude and depth hold the prediction rounded to 1
    decimal and the metric is computed from the same rounding; the
    records of longitude and latitude hold the prediction rounded to 3
    decimals while the metric is computed from the prediction rounded to
    2 decimals; the mean absolute error returned, which also names the
    file, is rounded to 3 decimals. *)
Theorem test_rounding_policy
    (df : list Row) (loader : list TestBatch) (target : string) (model : CNN)
    (files : gmap string (list (list cell)))
    (outs : list (list float)) (vs : list float) (mae : float)
    (column : string) (label : Row → float) (r q : Z) :
  documented_policy target = Some (column, label, r, q) →
  Forall2 (fun b out => forward (set_training false model) b.1.1 (Some b.2) = Ok out)
          loader outs →
  Forall2 (fun s v => dict_zip (map col_Image df) (map label df) !! s.1 = Some v)
          (test_samples loader outs) vs →
  mean_absolute_error vs (map (fun s => py_round s.2 q) (test_samples loader outs))
    = Ok mae →
  ((target = "mag" ∨ target = "dep") ∧ r = 1%Z ∧ q = 1%Z ∨
   (target = "lon" ∨ target = "lat") ∧ r = 3%Z ∧ q = 2%Z) ∧
  test df loader target (model, files) =
    (Ok (py_round mae 3),
     (set_training false model,
      <[csv_name target (py_round mae 3) :=
          [Str "id"; Str column; Str "prediction"]
          :: zip_with (sample_line r) (test_samples loader outs) vs]> files)).
Proof.
  intros (Hcol & Hlabel & Hr & Hq & Hdigits)%documented_policy_Some Houts Hvs Hmae.
  split; [exact Hdigits|]. subst column label r q.
  rewrite (test_policy_run _ _ _ _ _ _ _ _ Houts Hvs Hmae).
  unfold csv_name at 1. rewrite open_documented; [done|].
  destruct Hdigits as [([->| ->] & _)|([->| ->] & _)]; set_solver.
Qed.

(** C7. When the model yields one prediction per identifier on every
    batch and some identifier of the test set is not in the Image column
    of the reference table, [test] raises KeyError for such an identifier
    and writes no file: the sample is neither skipped nor given a default
    value. *)
Theorem test_missing_identifier
    (df : list Row) (loader : list TestBatch) (target : string) (model : CNN)
    (files : gmap string (list (list cell))) (outs : list (list float)) :
  Forall2 (fun b out => forward (set_training false model) b.1.1 (Some b.2) = Ok out ∧
                        length out = length b.1.2)
          loader outs →
  (∃ name, name ∈ concat (map (fun b => b.1.2) loader) ∧ name ∉ map col_Image df) →
  ∃ k, k ∈ concat (map (fun b => b.1.2) loader) ∧ (k ∉ map col_Image df) ∧
       test df loader target (model, files)
         = (Raise (KeyError k), (set_training false model, files)).
Proof.
  intros Houts Habsent.
  assert (Hfwd : Forall2 (fun b out =>
            forward (set_training false model) b.1.1 (Some b.2) = Ok out) loader outs)
    by (eapply Forall2_impl; [exact Houts|]; by intros ?? [? _]).
  assert (Hlen : Forall2 (fun (b : TestBatch) (out : list float) =>
            length out = length b.1.2) loader outs)
    by (eapply Forall2_impl; [exact Houts|]; by intros ?? [_ ?]).
  rewrite <- (test_samples_names _ _ Hlen) in Habsent |- *.
  destruct (samples_loop_absent df target _ ([], [], []) Habsent) as (k & Hk & Hk' & Hrun).
  exists k. split; [done|]. split; [done|].
  by rewrite test_outcome, (collect_flat _ _ _ _ _ _ Hfwd), Hrun.
Qed.

(** C9, as amended. The target string is never checked: with any target
    other than 'mag', 'dep' and 'lon' each sample is handled by the
    latitude branch (the latitude dictionary, 3 decimals in the record, 2
    decimals for the metric).  When the model accepts every batch, every
    identifier has its latitude and the metric is computed, the run
    fails only if the file named after the target cannot be opened, with
    the error of [open] and no file written; otherwise it returns the
    mean absolute error of the 2-decimal roundings against the
    latitudes, rounded to 3 decimals, and the file holds the header id,
    Lat, prediction and a line per sample with its latitude and its
    prediction rounded to 3 decimals. *)
Theorem test_unknown_target_is_latitude
    (df : list Row) (loader : list TestBatch) (target : string) (model : CNN)
    (files : gmap string (list (list cell)))
    (outs : list (list float)) (vs : list float) (mae : float) :
  target ≠ "mag" → target ≠ "dep" → target ≠ "lon" →
  Forall2 (fun b out => forward (set_training false model) b.1.1 (Some b.2) = Ok out)
          loader outs →
  Forall2 (fun s v => dict_zip (map col_Image df) (map col_Lat df) !! s.1 = Some v)
          (test_samples loader outs) vs →
  mean_absolute_error vs (map (fun s => py_round s.2 2) (test_samples loader outs))
    = Ok mae →
  (∀ label_mag label_lon label_lat label_dep predictions y_true y_pred name pred,
      test_sample target label_mag label_lon label_lat label_dep
        (predictions, y_true, y_pred) (name, pred)
      = (v ← getitem label_lat name;
         Ok (predictions ++ [[("id", Str name); ("Lat", Num v);
                              ("prediction", Num (py_round pred 3))]],
             y_true ++ [v],
             y_pred ++ [py_round pred 2]))) ∧
  match open_error (csv_name target (py_round mae 3)) with
  | Some e =>
      test df loader target (model, files) = (Raise e, (set_training false model, files))
  | None =>
      test df loader target (model, files) =
        (Ok (py_round mae 3),
         (set_training false model,
          <[csv_name target (py_round mae 3) :=
              [Str "id"; Str "Lat"; Str "prediction"]
              :: zip_with (sample_line 3) (test_samples loader outs) vs]> files))
  end.
Proof.
  intros Hmag Hdep Hlon Houts Hvs Hmae. split.
  - intros. unfold test_sample.
    destruct (String.eqb_spec target "mag"); [done|].
    destruct (String.eqb_spec target "dep"); [done|].
    destruct (String.eqb_spec target "lon"); [done|].
    destruct (getitem label_lat name); reflexivity.
  - destruct (unknown_target_policy target Hmag Hdep Hlon) as (Hcol & Hlabel & Hr & Hq).
    rewrite <- Hlabel in Hvs. rewrite <- Hq in Hmae.
    rewrite (test_policy_run _ _ _ _ _ _ _ _ Houts Hvs Hmae), Hcol, Hr.
    by destruct (open_error (csv_name target (py_round mae 3))).
Qed.
End TestClaims.

(** ** The theorems at work on the exact-arithmetic instance *)

Section Instances.
#[local] Existing Instance Exact.scalars.
#[local] Existing Instance Exact.vision.
#[local] Existing Instance Exact.learning.

(** The model runs: with an auxiliary row of width 2 per image it
    predicts, and [torch.cat] refuses a batch of auxiliary vectors that has
    a row more than there are images. *)
Example forward_sample :
  forward Exact.model Exact.images (Some (Exact.aux 2 2))
    = Ok [513 # 256; 1027 # 256]%Q.
Proof. by_evaluation. Qed.

Example forward_batch_mismatch :
  forward Exact.model Exact.images (Some (Exact.aux 3 2))
    = Raise (RuntimeError
               ("Sizes of tensors must match except in dimension 1. " +:+
                "Expected size 2 but got size 3 for tensor number 1 in the list.")).
Proof. by_evaluation. Qed.

(** The scenario of the specification: predictions 5.04 and 6.15 are
    recorded as 5.0 and 6.2 for magnitude. *)
Example round_scenario :
  py_round (504 # 100)%Q 1 = 5%Q ∧ py_round (615 # 100)%Q 1 = (31 # 5)%Q.
Proof. split; reflexivity. Qed.

Lemma forward_extra_params_enabled_witness :
  CNN_init "simple_cnn" true = Ok Exact.model ∧
  backbone_apply (feature_extractor Exact.model) false Exact.images
    = Ok (Exact.embed 64 Exact.images) ∧
  shape1 (Exact.embed 64 Exact.images) = in_features (reduce Exact.model) ∧
  shape0 (tensor (Exact.embed 64 Exact.images)) = length Exact.images ∧
  (forward (set_training false Exact.model) Exact.images None
     = Raise (ValueError "extra_params is required but not provided.") ∧
   (∀ e, shape1 e ≠ 2 → shape1 e ≠ 3 →
         forward (set_training false Exact.model) Exact.images (Some e)
           = Raise (ValueError "error - extra_params shape")) ∧
   (∀ e, shape1 e = 2 ∨ shape1 e = 3 → shape0 (tensor e) = length Exact.images →
         ∃ out, forward (set_training false Exact.model) Exact.images (Some e) = Ok out ∧
                length out = length Exact.images)).
Proof.
  split; [reflexivity|]. split; [reflexivity|]. split; [reflexivity|].
  split; [reflexivity|].
  apply (forward_extra_params_enabled "simple_cnn" Exact.model false Exact.images
           (Exact.embed 64 Exact.images)); reflexivity.
Defined.




Lemma train_returns_weighted_mean_witness :
  train_pass (set_training true Exact.model, 0) Exact.labelled_loader
    = Ok (Exact.pass_losses, Exact.pass_end) ∧
  0 < dataset_size Exact.labelled_loader ∧
  train Exact.labelled_loader (Exact.model, 0)
    = (Ok (weighted_mean Exact.pass_losses), Exact.pass_end).
Proof.
  assert (Hpass : train_pass (set_training true Exact.model, 0) Exact.labelled_loader
                  = Ok (Exact.pass_losses, Exact.pass_end))
    by by_evaluation.
  assert (Hsize : 0 < dataset_size Exact.labelled_loader) by (cbv; lia).
  split; [exact Hpass|]. split; [exact Hsize|].
  exact (train_returns_weighted_mean Exact.model 0 Exact.labelled_loader
           Exact.pass_losses Exact.pass_end Hpass Hsize).
Defined.

Lemma validate_returns_mean_loss_and_mae_witness :
  Forall2 (evaluated (set_training false Exact.model))
    Exact.labelled_loader Exact.eval_results ∧
  0 < dataset_size Exact.labelled_loader ∧
  mean_absolute_error (concat (map (fun b => b.1.2) Exact.labelled_loader))
    (concat (map fst Exact.eval_results)) = Ok Exact.eval_mae ∧
  ∃ model',
    validate Exact.labelled_loader Exact.model
      = (Ok (weighted_mean
               (zip (map snd Exact.eval_results)
                  (map (fun b => length b.1.1) Exact.labelled_loader)),
             Exact.eval_mae),
         model') ∧
    parameters model' = parameters Exact.model.
Proof.
  assert (Hrs : Forall2 (evaluated (set_training false Exact.model))
                  Exact.labelled_loader Exact.eval_results).
  { unfold Exact.labelled_loader, Exact.eval_results.
    constructor; [split; by_evaluation|].
    constructor; [split; by_evaluation|].
    constructor. }
  assert (Hsize : 0 < dataset_size Exact.labelled_loader) by (cbv; lia).
  assert (Hmae : mean_absolute_error
                   (concat (map (fun b => b.1.2) Exact.labelled_loader))
                   (concat (map fst Exact.eval_results)) = Ok Exact.eval_mae)
    by by_evaluation.
  split; [exact Hrs|]. split; [exact Hsize|]. split; [exact Hmae|].
  exact (validate_returns_mean_loss_and_mae Exact.model Exact.labelled_loader
           Exact.eval_results Exact.eval_mae Hrs Hsize Hmae).
Defined.

Lemma Exact_test_outputs_ok :
  Forall2 (fun b out => forward (set_training false Exact.model) b.1.1 (Some b.2) = Ok out)
    Exact.test_loader Exact.test_outputs.
Proof.
  unfold Exact.test_loader, Exact.test_outputs.
  constructor; [by_evaluation|]. constructor.
Qed.

Lemma Exact_test_latitudes :
  Forall2 (fun s v =>
             dict_zip (map col_Image Exact.table) (map col_Lat Exact.table) !! s.1
               = Some v)
    (test_samples Exact.test_loader Exact.test_outputs) [23; 24]%Q.
Proof.
  unfold Exact.test_loader, Exact.test_outputs, test_samples. cbn.
  constructor; [by_evaluation|].
  constructor; [by_evaluation|]. constructor.
Qed.

Lemma Exact_test_mae_lat_ok :
  mean_absolute_error [23; 24]%Q
    (map (fun s => py_round s.2 2) (test_samples Exact.test_loader Exact.test_outputs))
    = Ok Exact.test_mae_lat.
Proof. by_evaluation. Qed.

Lemma test_rounding_policy_witness :
  documented_policy "mag" = Some ("Mag", col_Mag, 1%Z, 1%Z) ∧
  Forall2 (fun b out => forward (set_training false Exact.model) b.1.1 (Some b.2) = Ok out)
    Exact.test_loader Exact.test_outputs ∧
  Forall2 (fun s v =>
             dict_zip (map col_Image Exact.table) (map col_Mag Exact.table) !! s.1
               = Some v)
    (test_samples Exact.test_loader Exact.test_outputs) [5; 62 # 10]%Q ∧
  mean_absolute_error [5; 62 # 10]%Q
    (map (fun s => py_round s.2 1) (test_samples Exact.test_loader Exact.test_outputs))
    = Ok Exact.test_mae ∧
  (("mag" = "mag" ∨ "mag" = "dep") ∧ 1%Z = 1%Z ∧ 1%Z = 1%Z ∨
   ("mag" = "lon" ∨ "mag" = "lat") ∧ 1%Z = 3%Z ∧ 1%Z = 2%Z) ∧
  test Exact.table Exact.test_loader "mag" (Exact.model, ∅) =
    (Ok (py_round Exact.test_mae 3),
     (set_training false Exact.model,
      <[csv_name "mag" (py_round Exact.test_mae 3) :=
          [Str "id"; Str "Mag"; Str "prediction"]
          :: zip_with (sample_line 1)
               (test_samples Exact.test_loader Exact.test_outputs) [5; 62 # 10]%Q]> ∅)).
Proof.
  assert (Hpolicy : documented_policy "mag" = Some ("Mag", col_Mag, 1%Z, 1%Z))
    by reflexivity.
  assert (Houts : Forall2 (fun b out =>
              forward (set_training false Exact.model) b.1.1 (Some b.2) = Ok out)
            Exact.test_loader Exact.test_outputs).
  { unfold Exact.test_loader, Exact.test_outputs.
    constructor; [by_evaluation|]. constructor. }
  assert (Hvs : Forall2 (fun s v =>
              dict_zip (map col_Image Exact.table) (map col_Mag Exact.table) !! s.1
                = Some v)
            (test_samples Exact.test_loader Exact.test_outputs) [5; 62 # 10]%Q).
  { unfold Exact.test_loader, Exact.test_outputs, test_samples. cbn.
    constructor; [by_evaluation|].
    constructor; [by_evaluation|]. constructor. }
  assert (Hmae : mean_absolute_error [5; 62 # 10]%Q
            (map (fun s => py_round s.2 1)
               (test_samples Exact.test_loader Exact.test_outputs))
            = Ok Exact.test_mae) by by_evaluation.
  split; [exact Hpolicy|]. split; [exact Houts|]. split; [exact Hvs|].
  split; [exact Hmae|].
  exact (test_rounding_policy Exact.table Exact.test_loader "mag" Exact.model ∅
           Exact.test_outputs [5; 62 # 10]%Q Exact.test_mae "Mag" col_Mag 1 1
           Hpolicy Houts Hvs Hmae).
Defined.

Lemma test_missing_identifier_witness :
  Forall2 (fun b out => forward (set_training false Exact.model) b.1.1 (Some b.2) = Ok out ∧
                        length out = length b.1.2)
    Exact.test_loader_missing Exact.test_outputs ∧
  (∃ name, name ∈ concat (map (fun b => b.1.2) Exact.test_loader_missing) ∧
           name ∉ map col_Image Exact.table) ∧
  ∃ k, k ∈ concat (map (fun b => b.1.2) Exact.test_loader_missing) ∧
       (k ∉ map col_Image Exact.table) ∧
       test Exact.table Exact.test_loader_missing "lat" (Exact.model, ∅)
         = (Raise (KeyError k), (set_training false Exact.model, ∅)).
Proof.
  assert (Houts : Forall2 (fun b out =>
              forward (set_training false Exact.model) b.1.1 (Some b.2) = Ok out ∧
              length out = length b.1.2)
            Exact.test_loader_missing Exact.test_outputs).
  { unfold Exact.test_loader_missing, Exact.test_outputs.
    constructor; [split; [by_evaluation | reflexivity]|]. constructor. }
  assert (Habsent : ∃ name,
            name ∈ concat (map (fun b => b.1.2) Exact.test_loader_missing) ∧
            name ∉ map col_Image Exact.table).
  { exists "C". cbn. split.
    - apply list_elem_of_further, list_elem_of_here.
    - intros Hin. repeat (apply elem_of_cons in Hin as [Hin|Hin]; [discriminate|]).
      by apply elem_of_nil in Hin. }
  split; [exact Houts|]. split; [exact Habsent|].
  exact (test_missing_identifier Exact.table Exact.test_loader_missing "lat"
           Exact.model ∅ Exact.test_outputs Houts Habsent).
Defined.

Lemma test_unknown_target_is_latitude_witness :
  "foo" ≠ "mag" ∧ "foo" ≠ "dep" ∧ "foo" ≠ "lon" ∧
  Forall2 (fun b out => forward (set_training false Exact.model) b.1.1 (Some b.2) = Ok out)
    Exact.test_loader Exact.test_outputs ∧
  Forall2 (fun s v =>
             dict_zip (map col_Image Exact.table) (map col_Lat Exact.table) !! s.1
               = Some v)
    (test_samples Exact.test_loader Exact.test_outputs) [23; 24]%Q ∧
  mean_absolute_error [23; 24]%Q
    (map (fun s => py_round s.2 2) (test_samples Exact.test_loader Exact.test_outputs))
    = Ok Exact.test_mae_lat ∧
  (∀ label_mag label_lon label_lat label_dep predictions y_true y_pred name pred,
      test_sample "foo" label_mag label_lon label_lat label_dep
        (predictions, y_true, y_pred) (name, pred)
      = (v ← getitem label_lat name;
         Ok (predictions ++ [[("id", Str name); ("Lat", Num v);
                              ("prediction", Num (py_round pred 3))]],
             y_true ++ [v],
             y_pred ++ [py_round pred 2]))) ∧
  match open_error (csv_name "foo" (py_round Exact.test_mae_lat 3)) with
  | Some e =>
      test Exact.table Exact.test_loader "foo" (Exact.model, ∅)
        = (Raise e, (set_training false Exact.model, ∅))
  | None =>
      test Exact.table Exact.test_loader "foo" (Exact.model, ∅) =
        (Ok (py_round Exact.test_mae_lat 3),
         (set_training false Exact.model,
          <[csv_name "foo" (py_round Exact.test_mae_lat 3) :=
              [Str "id"; Str "Lat"; Str "prediction"]
              :: zip_with (sample_line 3)
                   (test_samples Exact.test_loader Exact.test_outputs) [23; 24]%Q]> ∅))
  end.
Proof.
  assert (Hmag : "foo" ≠ "mag") by discriminate.
  assert (Hdep : "foo" ≠ "dep") by discriminate.
  assert (Hlon : "foo" ≠ "lon") by discriminate.
  split; [exact Hmag|]. split; [exact Hdep|]. split; [exact Hlon|].
  split; [exact Exact_test_outputs_ok|]. split; [exact Exact_test_latitudes|].
  split; [exact Exact_test_mae_lat_ok|].
  exact (test_unknown_target_is_latitude Exact.table Exact.test_loader "foo"
           Exact.model ∅ Exact.test_outputs [23; 24]%Q Exact.test_mae_lat
           Hmag Hdep Hlon Exact_test_outputs_ok Exact_test_latitudes
           Exact_test_mae_lat_ok).
Defined.

(** C9 as the specification states it fails: on the table and the test
    batch above the run for 'lat' ends well, and the run for the target
    'a/b', handled by the latitude branch all along, ends in the
    FileNotFoundError of [open], the name of its result file pointing
    into a directory that does not exist. *)
Lemma latitude_for_any_other_target_counterexample :
  test Exact.table Exact.test_loader "lat" (Exact.model, ∅) =
    (Ok (py_round Exact.test_mae_lat 3),
     (set_training false Exact.model,
      <[csv_name "lat" (py_round Exact.test_mae_lat 3) :=
          [Str "id"; Str "Lat"; Str "prediction"]
          :: zip_with (sample_line 3)
               (test_samples Exact.test_loader Exact.test_outputs) [23; 24]%Q]> ∅)) ∧
  test Exact.table Exact.test_loader "a/b" (Exact.model, ∅) =
    (Raise (FileNotFoundError "Prediction(a/b) - MAE = 20.495.csv"),
     (set_training false Exact.model, ∅)) ∧
  ¬ latitude_for_any_other_target Exact.table Exact.test_loader Exact.model ∅.
Proof.
  pose proof (test_policy_run Exact.table Exact.test_loader "lat" Exact.model ∅
                Exact.test_outputs [23; 24]%Q Exact.test_mae_lat
                Exact_test_outputs_ok Exact_test_latitudes Exact_test_mae_lat_ok)
    as Hlat.
  pose proof (test_policy_run Exact.table Exact.test_loader "a/b" Exact.model ∅
                Exact.test_outputs [23; 24]%Q Exact.test_mae_lat
                Exact_test_outputs_ok Exact_test_latitudes Exact_test_mae_lat_ok)
    as Hbad.
  match type of Hlat with
  | _ = match ?o with _ => _ end => replace o with (@None exn) in Hlat by by_evaluation
  end.
  match type of Hbad with
  | _ = match ?o with _ => _ end =>
      replace o with (Some (FileNotFoundError "Prediction(a/b) - MAE = 20.495.csv"))
        in Hbad by by_evaluation
  end.
  split; [exact Hlat|]. split; [exact Hbad|].
  intros Hclaim.
  destruct (Hclaim "a/b" ltac:(discriminate) ltac:(discriminate) ltac:(discriminate)
              _ _ Hlat) as [lines Hgood].
  rewrite Hbad in Hgood. discriminate.
Qed.
End Instances.

(** ** More on the test loop: the reference dictionaries *)
Section TableFacts.
Context `{Learning}.

Lemma dict_zip_snoc (keys : list string) (values : list float) k v :
  length keys = length values →
  dict_zip (keys ++ [k]) (values ++ [v]) = <[k := v]> (dict_zip keys values).
Proof.
  intros Hlen. unfold dict_zip.
  rewrite zip_with_app by done. by rewrite fold_left_app.
Qed.

(** X3. The ground truth [test] finds for an identifier is the value, in
    the target's column, of the last row of the table that carries this
    identifier in its Image column; the lookup fails exactly when no row
    does. *)
Theorem dict_zip_last_row (df : list Row) (column : Row → float) (k : string) :
  dict_zip (map col_Image df) (map column df) !! k
    = column <$> last (filter (fun r => col_Image r = k) df).
Proof.
  induction df as [|r df IH] using rev_ind; [done|].
  rewrite !map_app. cbn [map].
  rewrite dict_zip_snoc by (by rewrite !length_map).
  rewrite filter_app, filter_cons, filter_nil.
  destruct (decide (col_Image r = k)) as [->|Hne].
  - rewrite lookup_insert_eq. by rewrite last_snoc.
  - rewrite lookup_insert_ne by done. by rewrite app_nil_r.
Qed.
End TableFacts.

(** ** More on the test loop: what a run leaves behind *)
Section TestRuns.
Context `{Learning}.

(** X1. A run of [test] is all or nothing on the files: when it raises,
    whatever the error, no file has been opened; when it returns, exactly
    one file has been written, named after the target and the value
    returned, with the header of the target's column followed by rows of
    three cells, and the value returned is a rounding to 3 decimals.  In
    both cases the model is left in evaluation mode. *)
Theorem test_all_or_nothing
    (df : list Row) (loader : list TestBatch) (target : string) (model : CNN)
    (files : gmap string (list (list cell))) :
  match test df loader target (model, files) with
  | (Ok MAE, (model', files')) =>
      model' = set_training false model ∧
      (∃ mae, MAE = py_round mae 3) ∧
      ∃ lines,
        files' = <[csv_name target MAE :=
                     [Str "id"; Str (target_column target); Str "prediction"] :: lines]>
                   files ∧
        Forall (fun line => length line = 3) lines
  | (Raise e, (model', files')) =>
      model' = set_training false model ∧ files' = files
  end.
Proof.
  rewrite test_outcome.
  destruct (collect (set_training false model) df target loader ([], [], []))
    as [[[predictions y_true] y_pred]|e] eqn:Hcollect; [|done].
  destruct (mean_absolute_error y_true y_pred) as [mae|e]; [|done].
  destruct (open_error (csv_name target (py_round mae 3))) as [e|]; [done|].
  split; [done|]. split; [by exists mae|].
  exists (map (map snd) predictions). split; [done|].
  apply Forall_fmap.
  eapply Forall_impl; [apply (collect_shaped _ _ _ _ _ _ Hcollect); constructor|].
  by intros row (n & v & p & ->).
Qed.

Lemma samples_loop_present df target samples acc :
  Forall (fun s => s.1 ∈ map col_Image df) samples →
  ∃ acc', for_each_r (sample_step df target) samples acc = Ok acc'.
Proof.
  intros Hall. revert acc.
  induction Hall as [|[name pred] samples Hname _ IH]; intros acc; [by eexists|].
  destruct acc as [[predictions y_true] y_pred].
  cbn [for_each_r]. rewrite sample_step_policy. unfold getitem.
  destruct (dict_zip (map col_Image df) (map (target_label target) df) !! name)
    as [v|] eqn:Hv.
  - cbn. apply IH.
  - apply dict_zip_lookup_None in Hv. done.
Qed.

(** X2. The KeyError of [test] names the first identifier, in the order
    of the loader, that is missing from the Image column of the table:
    the identifiers before it are looked up without error, the ones after
    it are never reached. *)
Theorem test_first_missing_identifier
    (df : list Row) (loader : list TestBatch) (target : string) (model : CNN)
    (files : gmap string (list (list cell))) (outs : list (list float))
    (present : list string) (k : string) (later : list string) :
  Forall2 (fun b out => forward (set_training false model) b.1.1 (Some b.2) = Ok out ∧
                        length out = length b.1.2)
          loader outs →
  concat (map (fun b => b.1.2) loader) = present ++ k :: later →
  Forall (fun name => name ∈ map col_Image df) present →
  k ∉ map col_Image df →
  test df loader target (model, files)
    = (Raise (KeyError k), (set_training false model, files)).
Proof.
  intros Houts Hnames Hpresent Hk.
  assert (Hfwd : Forall2 (fun b out =>
            forward (set_training false model) b.1.1 (Some b.2) = Ok out) loader outs)
    by (eapply Forall2_impl; [exact Houts|]; by intros ?? [? _]).
  assert (Hlen : Forall2 (fun (b : TestBatch) (out : list float) =>
            length out = length b.1.2) loader outs)
    by (eapply Forall2_impl; [exact Houts|]; by intros ?? [_ ?]).
  rewrite <- (test_samples_names _ _ Hlen) in Hnames.
  apply fmap_app_inv in Hnames as (before & rest & -> & Hrest & Hsamples).
  symmetry in Hrest. apply fmap_cons_inv in Hrest as ([k' pred] & after & -> & _ & ->).
  rewrite test_outcome, (collect_flat _ _ _ _ _ _ Hfwd), Hsamples, for_each_r_app.
  destruct (samples_loop_present df target before ([], [], [])) as [[[P yt] yp] Hbefore].
  { by apply Forall_fmap in Hpresent. }
  rewrite Hbefore. cbn [mbind Result_bind for_each_r].
  rewrite sample_step_policy. unfold getitem.
  by rewrite (proj2 (dict_zip_lookup_None df (target_label target) k') Hk).
Qed.
End TestRuns.

(** ** More on inference: batches that do not line up *)
Section ForwardEdges.
Context `{Vision}.

(** X7. On a model built with auxiliary parameters enabled, an auxiliary
    batch of width 2 or 3 whose number of rows differs from the number of
    images is refused: forward raises a RuntimeError, that of
    [torch.cat], after the backbone, the reduction and the encoder have
    run. *)
Theorem forward_batch_size_mismatch
    (model_type : string) (m0 : CNN) (mode : bool) (x : list Image)
    (emb e : DynTensor2) :
  CNN_init model_type true = Ok m0 →
  backbone_apply (feature_extractor m0) mode x = Ok emb →
  shape1 emb = in_features (reduce m0) →
  shape0 (tensor emb) = length x →
  shape1 e = 2 ∨ shape1 e = 3 →
  shape0 (tensor e) ≠ length x →
  ∃ msg, forward (set_training mode m0) x (Some e) = Raise (RuntimeError msg).
Proof.
  intros (fe & d & _ & Hm0)%CNN_init_Ok Hemb Hd Hn Hw Hrows. subst m0.
  cbn in Hemb, Hd.
  destruct (Linear_ReLU_ok (nn_Linear "reduce.0" d 128) (tensor emb) Hd)
    as (r & Hr & Hs & _).
  unfold forward. cbn. rewrite Hemb. cbn. rewrite Hr. cbn.
  assert (Henc : ∃ p : Tensor2 64,
    (if shape1 e =? 2 then
       Linear_ReLU_x2 (nn_Linear "param_fc_2.0" 2 16, nn_Linear "param_fc_2.2" 16 64)
         (tensor e)
     else if shape1 e =? 3 then
       Linear_ReLU_x2 (nn_Linear "param_fc_3.0" 3 16, nn_Linear "param_fc_3.2" 16 64)
         (tensor e)
     else Raise (ValueError "error - extra_params shape")) = Ok p ∧
    shape0 p = shape0 (tensor e)).
  { destruct Hw as [Hw|Hw].
    - destruct (Linear_ReLU_x2_ok
                  (nn_Linear "param_fc_2.0" 2 16, nn_Linear "param_fc_2.2" 16 64)
                  (tensor e)) as (p & Hp & Hps); [by rewrite Hw | done |].
      exists p. apply Nat.eqb_eq in Hw as ->. done.
    - destruct (Linear_ReLU_x2_ok
                  (nn_Linear "param_fc_3.0" 3 16, nn_Linear "param_fc_3.2" 16 64)
                  (tensor e)) as (p & Hp & Hps); [by rewrite Hw | done |].
      exists p. destruct (Nat.eqb_spec (shape1 e) 2) as [Hw2|_]; [congruence|].
      apply Nat.eqb_eq in Hw as ->. done. }
  destruct Henc as (p & -> & Hps). cbn.
  unfold cat1. destruct (Nat.eqb_spec (shape0 r) (shape0 p)) as [Heq|_]; [|by eexists].
  rewrite Hs, Hn, Hps in Heq. congruence.
Qed.
End ForwardEdges.

(** ** More on the loops *)
Section LoopEdges.
Context `{Learning}.

(** The loop of [train] stops at the first batch that is refused, in the
    state the steps before it left. *)
Lemma train_loop_refused done inputs labels extra rest s obs s1 e total_loss total :
  train_pass s done = Ok (obs, s1) →
  forward s1.1 inputs (Some extra) = Raise e ∨
  (∃ outputs, forward s1.1 inputs (Some extra) = Ok outputs ∧
              criterion outputs labels = Raise e) →
  for_each (fun '(total_loss, total) '(inputs, labels, extra_params) =>
      '(model, optimizer) ← get;
      outputs ← lift (forward model inputs (Some extra_params));
      loss ← lift (criterion outputs labels);
      put (optimizer_update model optimizer inputs labels extra_params);;
      mret (py_add total_loss (py_mul loss (py_float (length inputs))),
            total + length inputs))
    (done ++ (inputs, labels, extra) :: rest) (total_loss, total) s
  = (Raise e, s1).
Proof.
  intros Hpass Hrefused. revert s obs total_loss total Hpass.
  induction done as [|[[inputs' labels'] extra'] done IH];
    intros [model optimizer] obs total_loss total; cbn [train_pass app for_each].
  - intros [= <- <-]. rewrite run_bind, run_get_bind, run_lift_bind. cbn [fst] in Hrefused.
    destruct Hrefused as [->|(outputs & -> & Hc)]; [done|].
    by rewrite run_lift_bind, Hc.
  - rewrite run_bind, run_get_bind, run_lift_bind. cbn [fst snd].
    destruct (forward model inputs' (Some extra')) as [outputs|]; [cbn|done].
    rewrite run_lift_bind.
    destruct (criterion outputs labels') as [loss|]; [cbn|done].
    rewrite run_put_bind, run_ret.
    destruct (train_pass _ done) as [[obs' s'']|] eqn:Hdone; [cbn|done].
    intros [= <- <-]. by apply (IH _ obs').
Qed.

(** X5. The division by zero does not need an empty loader: whenever the
    batches of the loader hold no sample in total, [train] runs every
    batch, optimizer steps included, and [validate] every forward pass,
    and both then raise ZeroDivisionError; [validate] does so before the
    metric is computed. *)
Theorem train_validate_no_samples
    (model : CNN) (optimizer : Optimizer) (loader : list Batch)
    (obs : list (float * nat)) (s' : CNN * Optimizer) (rs : list (list float * float)) :
  dataset_size loader = 0 →
  train_pass (set_training true model, optimizer) loader = Ok (obs, s') →
  Forall2 (evaluated (set_training false model)) loader rs →
  train loader (model, optimizer) = (Raise ZeroDivisionError, s') ∧
  validate loader model = (Raise ZeroDivisionError, set_training false model).
Proof.
  intros Hsize Hpass Hrs. split.
  - unfold train. rewrite run_get_bind, run_put_bind, run_bind.
    rewrite (train_loop _ _ _ _ _ _ Hpass), (train_pass_samples _ _ _ _ Hpass), Hsize.
    by rewrite run_lift_bind.
  - unfold validate. rewrite run_get_bind, run_put_bind, run_bind.
    rewrite (validate_loop _ _ _ _ _ _ _ Hrs), Hsize.
    by rewrite run_lift_bind.
Qed.

Lemma evaluated_outputs model loader rs :
  Forall2 (evaluated model) loader rs →
  Forall2 (fun b r => length r.1 = length b.1.1) loader rs →
  length (concat (map fst rs)) = dataset_size loader.
Proof.
  intros _ Hlen. unfold dataset_size.
  induction Hlen as [|b r loader rs Hbr _ IH]; [done|].
  cbn. rewrite length_app, IH, Hbr. done.
Qed.

(** X6. [validate] runs to its end on every loader of well-shaped batches,
    also when batches of width 2 and of width 3 alternate: for a model
    built with auxiliary parameters enabled, a loader with at least one
    sample whose batches the backbone embeds and whose auxiliary vectors
    have width 2 or 3 with a row per image, a criterion that accepts one
    prediction per image and a metric that accepts one prediction per
    sample, it returns a pair. *)
Theorem validate_accepts_well_shaped_loader
    (model_type : string) (m0 : CNN) (loader : list Batch) :
  CNN_init model_type true = Ok m0 →
  Forall (well_shaped m0 false) loader →
  Forall (fun b => ∀ outputs, length outputs = length b.1.1 →
                              ∃ loss, criterion outputs b.1.2 = Ok loss) loader →
  0 < dataset_size loader →
  (∀ outputs, length outputs = dataset_size loader →
              ∃ mae, mean_absolute_error (concat (map (fun b => b.1.2) loader)) outputs
                     = Ok mae) →
  ∃ avg_loss mae,
    validate loader m0 = (Ok (avg_loss, mae), set_training false m0).
Proof.
  intros Hinit Hshaped Hcrit Hsize Hmetric.
  pose proof Hinit as (fe & d & _ & Hm0)%CNN_init_Ok.
  assert (Hrs : ∃ rs, Forall2 (evaluated (set_training false m0)) loader rs ∧
                      Forall2 (fun b r => length r.1 = length b.1.1) loader rs).
  { clear Hsize Hmetric.
    induction loader as [|[[inputs labels] extra] loader IH].
    { exists []. split; constructor. }
    apply Forall_cons in Hshaped as [((emb & Hemb & Hd & Hn) & Hw & Hrows) Hshaped].
    apply Forall_cons in Hcrit as [Hc Hcrit]. cbn in *.
    destruct (IH Hshaped Hcrit) as (rs & Hrs & Hlens).
    destruct (forward_enabled (set_training false m0) inputs emb)
      as (_ & _ & Hok); [by subst m0..|].
    assert (Hout : ∃ out, forward (set_training false m0) inputs (Some extra) = Ok out ∧
                          length out = length inputs).
    { subst m0. destruct Hw as [Hw|Hw].
      - apply (Hok extra (nn_Linear "param_fc_2.0" 2 16, nn_Linear "param_fc_2.2" 16 64));
          [left | | |]; done.
      - apply (Hok extra (nn_Linear "param_fc_3.0" 3 16, nn_Linear "param_fc_3.2" 16 64));
          [right | | |]; done. }
    destruct Hout as (out & Hout & Hlen).
    destruct (Hc out Hlen) as [loss Hloss].
    exists ((out, loss) :: rs). split; constructor; done. }
  destruct Hrs as (rs & Hrs & Hlens).
  destruct (Hmetric (concat (map fst rs))) as [mae Hmae].
  { by apply (evaluated_outputs (set_training false m0)). }
  eexists _, mae. unfold validate.
  rewrite run_get_bind, run_put_bind, run_bind.
  rewrite (validate_loop _ _ _ _ _ _ _ Hrs). cbn.
  rewrite run_lift_bind. unfold py_truediv.
  destruct (Nat.eqb_spec (dataset_size loader) 0); [lia|].
  by rewrite run_lift_bind, Hmae.
Qed.
End LoopEdges.

(** ** More on the test loop: identifiers and predictions that do not pair up *)
Section TestPairing.
Context `{Learning}.

Lemma zip_surplus {A B} (xs surplus : list A) (ys : list B) :
  length ys ≤ length xs → zip (xs ++ surplus) ys = zip xs ys.
Proof.
  revert ys. induction xs as [|x xs IH]; intros [|y ys] Hlen; cbn in *; try done.
  - by destruct surplus.
  - lia.
  - rewrite IH; [done | lia].
Qed.

Lemma for_each_r_at {X A} (f : A → X → Result A) pre x x' post acc :
  (∀ a, f a x = f a x') →
  for_each_r f (pre ++ x :: post) acc = for_each_r f (pre ++ x' :: post) acc.
Proof.
  intros Hx. rewrite !for_each_r_app.
  destruct (for_each_r f pre acc) as [acc'|]; [|done].
  cbn [mbind Result_bind for_each_r]. by rewrite Hx.
Qed.

(** X8. [test] pairs identifiers and predictions with [zip]: identifiers
    of a batch beyond the number of predictions the model returns for it
    are dropped without a lookup and without an error, so the run is the
    run without them, even where such an identifier is missing from the
    table. *)
Theorem test_ignores_surplus_identifiers
    (df : list Row) (target : string) (model : CNN)
    (files : gmap string (list (list cell)))
    (pre post : list TestBatch) (images : list Image) (names surplus : list string)
    (extra : DynTensor2) (outputs : list float) :
  forward (set_training false model) images (Some extra) = Ok outputs →
  length outputs ≤ length names →
  test df (pre ++ (images, names ++ surplus, extra) :: post) target (model, files)
    = test df (pre ++ (images, names, extra) :: post) target (model, files).
Proof.
  intros Hout Hlen. rewrite !test_outcome. unfold collect.
  rewrite (for_each_r_at _ pre (images, names ++ surplus, extra) (images, names, extra));
    [done|].
  intros acc. cbn. rewrite Hout. cbn. by rewrite zip_surplus.
Qed.
End TestPairing.

(** ** More on inference: the samples of a batch *)
Section RowWise.
Context `{Vision}.

Lemma Linear_forward_vstack {o c} (l : Linear o) (a b : Tensor2 c) (ya yb : Tensor2 o) :
  Linear_forward l a = Ok ya → Linear_forward l b = Ok yb →
  Linear_forward l (vstack a b) = Ok (vstack ya yb).
Proof.
  unfold Linear_forward, vstack. destruct (c =? in_features l); [|done].
  intros [= <-] [= <-]. cbn. by rewrite map_app.
Qed.

Lemma Linear_ReLU_vstack {o c} (l : Linear o) (a b : Tensor2 c) (ya yb : Tensor2 o) :
  Linear_ReLU l a = Ok ya → Linear_ReLU l b = Ok yb →
  Linear_ReLU l (vstack a b) = Ok (vstack ya yb).
Proof.
  unfold Linear_ReLU.
  destruct (Linear_forward l a) as [za|] eqn:Ha; [|done].
  destruct (Linear_forward l b) as [zb|] eqn:Hb; [|done].
  cbn. intros [= <-] [= <-]. rewrite (Linear_forward_vstack _ _ _ _ _ Ha Hb). cbn.
  unfold ReLU, vstack. cbn. by rewrite map_app.
Qed.

Lemma Linear_ReLU_x2_vstack {h o c} (ls : Linear h * Linear o) (a b : Tensor2 c)
    (ya yb : Tensor2 o) :
  Linear_ReLU_x2 ls a = Ok ya → Linear_ReLU_x2 ls b = Ok yb →
  Linear_ReLU_x2 ls (vstack a b) = Ok (vstack ya yb).
Proof.
  unfold Linear_ReLU_x2.
  destruct (Linear_ReLU ls.1 a) as [za|] eqn:Ha; [|done].
  destruct (Linear_ReLU ls.1 b) as [zb|] eqn:Hb; [|done].
  cbn. intros Hya Hyb. rewrite (Linear_ReLU_vstack _ _ _ _ _ Ha Hb). cbn.
  by apply Linear_ReLU_vstack.
Qed.

Lemma cat1_vstack {a b} (x1 x2 : Tensor2 a) (p1 p2 : Tensor2 b) (c1 c2 : Tensor2 (a + b)) :
  cat1 x1 p1 = Ok c1 → cat1 x2 p2 = Ok c2 →
  cat1 (vstack x1 x2) (vstack p1 p2) = Ok (vstack c1 c2).
Proof.
  unfold cat1, vstack, shape0. cbn.
  destruct (Nat.eqb_spec (length (rows x1)) (length (rows p1))) as [H1|]; [|done].
  destruct (Nat.eqb_spec (length (rows x2)) (length (rows p2))) as [H2|]; [|done].
  intros [= <-] [= <-]. cbn. rewrite !length_app, H1, H2, Nat.eqb_refl.
  by rewrite zip_with_app.
Qed.

Lemma squeeze1_vstack (a b : Tensor2 1) :
  squeeze1 (vstack a b) = squeeze1 a ++ squeeze1 b.
Proof. unfold squeeze1, vstack. cbn. by rewrite concat_app. Qed.

(** The head of the model on a stacked batch. *)
Lemma head_vstack (m : CNN) {c} (x1 x2 : Tensor2 c) (o1 o2 : list float) :
  (out ← Linear_ReLU (fc1 m) x1; out ← Linear_forward (fc2 m) out; Ok (squeeze1 out))
    = Ok o1 →
  (out ← Linear_ReLU (fc1 m) x2; out ← Linear_forward (fc2 m) out; Ok (squeeze1 out))
    = Ok o2 →
  (out ← Linear_ReLU (fc1 m) (vstack x1 x2); out ← Linear_forward (fc2 m) out;
   Ok (squeeze1 out)) = Ok (o1 ++ o2).
Proof.
  destruct (Linear_ReLU (fc1 m) x1) as [y1|] eqn:Hy1; [|done].
  destruct (Linear_ReLU (fc1 m) x2) as [y2|] eqn:Hy2; [|done].
  cbn. destruct (Linear_forward (fc2 m) y1) as [z1|] eqn:Hz1; [|done].
  destruct (Linear_forward (fc2 m) y2) as [z2|] eqn:Hz2; [|done].
  cbn. intros [= <-] [= <-].
  rewrite (Linear_ReLU_vstack _ _ _ _ _ Hy1 Hy2). cbn.
  rewrite (Linear_forward_vstack _ _ _ _ _ Hz1 Hz2). cbn [mbind Result_bind].
  by rewrite squeeze1_vstack.
Qed.

(** Forward on two batches put together, from forward on each. *)
Lemma forward_vstack
    (m : CNN) (x1 x2 : list Image) (d w : nat) (t1 t2 : Tensor2 d) (a1 a2 : Tensor2 w)
    (o1 o2 : list float) :
  backbone_apply (feature_extractor m) (training m) x1 = Ok (mkDyn t1) →
  backbone_apply (feature_extractor m) (training m) x2 = Ok (mkDyn t2) →
  backbone_apply (feature_extractor m) (training m) (x1 ++ x2) = Ok (mkDyn (vstack t1 t2)) →
  forward m x1 (Some (mkDyn a1)) = Ok o1 →
  forward m x2 (Some (mkDyn a2)) = Ok o2 →
  forward m (x1 ++ x2) (Some (mkDyn (vstack a1 a2))) = Ok (o1 ++ o2).
Proof.
  intros Hb1 Hb2 Hb. unfold forward. rewrite Hb1, Hb2, Hb. cbn.
  destruct (Linear_ReLU (reduce m) t1) as [r1|] eqn:Hr1; [|done].
  destruct (Linear_ReLU (reduce m) t2) as [r2|] eqn:Hr2; [|done].
  rewrite (Linear_ReLU_vstack _ _ _ _ _ Hr1 Hr2). cbn.
  destruct (use_extra_params m).
  - destruct (w =? 2).
    + destruct (getattr "param_fc_2" (param_fc_2 m)) as [enc|]; [cbn|done].
      destruct (Linear_ReLU_x2 enc a1) as [p1|] eqn:Hp1; [|done].
      destruct (Linear_ReLU_x2 enc a2) as [p2|] eqn:Hp2; [|done].
      rewrite (Linear_ReLU_x2_vstack _ _ _ _ _ Hp1 Hp2). cbn.
      destruct (cat1 r1 p1) as [c1|] eqn:Hc1; [|done].
      destruct (cat1 r2 p2) as [c2|] eqn:Hc2; [|done].
      rewrite (cat1_vstack _ _ _ _ _ _ Hc1 Hc2). cbn. apply head_vstack.
    + destruct (w =? 3); [|done].
      destruct (getattr "param_fc_3" (param_fc_3 m)) as [enc|]; [cbn|done].
      destruct (Linear_ReLU_x2 enc a1) as [p1|] eqn:Hp1; [|done].
      destruct (Linear_ReLU_x2 enc a2) as [p2|] eqn:Hp2; [|done].
      rewrite (Linear_ReLU_x2_vstack _ _ _ _ _ Hp1 Hp2). cbn.
      destruct (cat1 r1 p1) as [c1|] eqn:Hc1; [|done].
      destruct (cat1 r2 p2) as [c2|] eqn:Hc2; [|done].
      rewrite (cat1_vstack _ _ _ _ _ _ Hc1 Hc2). cbn. apply head_vstack.
  - cbn. apply head_vstack.
Qed.

(** X9. After the backbone, forward handles the samples of a batch one by
    one: where the backbone embeds a stacked batch as the stack of the
    embeddings of its two parts, and forward accepts each part with its
    auxiliary vectors, forward on the stacked batch with the stacked
    auxiliary vectors returns the predictions of the first part followed
    by those of the second. *)
Theorem forward_on_stacked_batches
    (m : CNN) (x1 x2 : list Image) (d w : nat) (t1 t2 : Tensor2 d) (a1 a2 : Tensor2 w)
    (o1 o2 : list float) :
  backbone_apply (feature_extractor m) (training m) x1 = Ok (mkDyn t1) →
  backbone_apply (feature_extractor m) (training m) x2 = Ok (mkDyn t2) →
  backbone_apply (feature_extractor m) (training m) (x1 ++ x2) = Ok (mkDyn (vstack t1 t2)) →
  forward m x1 (Some (mkDyn a1)) = Ok o1 →
  forward m x2 (Some (mkDyn a2)) = Ok o2 →
  forward m (x1 ++ x2) (Some (mkDyn (vstack a1 a2))) = Ok (o1 ++ o2).
Proof. apply forward_vstack. Qed.
End RowWise.

(** ** The hand-written backbone: shapes *)
Section ConvFacts.
Context `{ConvScalars}.

Lemma Conv2d_forward_3x3 (l : Conv2d) (x : Tensor4) :
  kernel_size l = 3 → stride l = 1 → padding l = 1 →
  dim1 x = in_channels l → 1 ≤ dim2 x → 1 ≤ dim3 x →
  ∃ y, Conv2d_forward l x = Ok y ∧
       dim0 y = dim0 x ∧ dim1 y = out_channels l ∧ dim2 y = dim2 x ∧ dim3 y = dim3 x.
Proof.
  intros Hk Hs Hp Hc Hh Hw. unfold Conv2d_forward. rewrite Hk, Hs, Hp, Hc, Nat.eqb_refl.
  cbn [negb Nat.eqb].
  destruct (Nat.ltb_spec (dim2 x + 2 * 1) 3); [lia|].
  destruct (Nat.ltb_spec (dim3 x + 2 * 1) 3); [lia|].
  cbn [orb]. eexists; split; [done|]. cbn [tabulate4 dim0 dim1 dim2 dim3].
  rewrite !Nat.div_1_r. lia.
Qed.

Lemma Conv2d_forward_refuses (l : Conv2d) (x : Tensor4) :
  kernel_size l = 3 → stride l = 1 → padding l = 1 →
  dim1 x ≠ in_channels l ∨ dim2 x = 0 ∨ dim3 x = 0 →
  ∃ msg, Conv2d_forward l x = Raise (RuntimeError msg).
Proof.
  intros Hk Hs Hp Hbad. unfold Conv2d_forward. rewrite Hk, Hs, Hp.
  destruct (Nat.eqb_spec (dim1 x) (in_channels l)) as [Hc|]; cbn [negb]; [|by eexists].
  cbn [Nat.eqb].
  destruct (Nat.ltb_spec (dim2 x + 2 * 1) 3); cbn [orb]; [by eexists|].
  destruct (Nat.ltb_spec (dim3 x + 2 * 1) 3); cbn [orb]; [by eexists|].
  lia.
Qed.

Lemma MaxPool2d_forward_2 (x : Tensor4) :
  2 ≤ dim2 x → 2 ≤ dim3 x →
  ∃ y, MaxPool2d_forward 2 x = Ok y ∧
       dim0 y = dim0 x ∧ dim1 y = dim1 x ∧ dim2 y = dim2 x / 2 ∧ dim3 y = dim3 x / 2.
Proof.
  intros Hh Hw. unfold MaxPool2d_forward. cbn [Nat.eqb].
  destruct (Nat.ltb_spec (dim2 x) 2); [lia|].
  destruct (Nat.ltb_spec (dim3 x) 2); [lia|].
  cbn [orb]. eexists; split; [done|]. cbn [tabulate4 dim0 dim1 dim2 dim3].
  assert (Hdiv : ∀ n, 2 ≤ n → (n - 2) / 2 + 1 = n / 2).
  { intros n Hn. replace n with (n - 2 + 1 * 2) at 2 by lia.
    rewrite Nat.div_add by done. done. }
  by rewrite !Hdiv.
Qed.

Lemma MaxPool2d_forward_refuses (x : Tensor4) :
  dim2 x < 2 ∨ dim3 x < 2 →
  ∃ msg, MaxPool2d_forward 2 x = Raise (RuntimeError msg).
Proof.
  intros Hbad. unfold MaxPool2d_forward. cbn [Nat.eqb].
  destruct (Nat.ltb_spec (dim2 x) 2); cbn [orb]; [by eexists|].
  destruct (Nat.ltb_spec (dim3 x) 2); cbn [orb]; [by eexists|].
  lia.
Qed.

Lemma AdaptiveAvgPool2d_1x1_ok (x : Tensor4) :
  1 ≤ dim2 x → 1 ≤ dim3 x →
  ∃ y, AdaptiveAvgPool2d_1x1 x = Ok y ∧
       dim0 y = dim0 x ∧ dim1 y = dim1 x ∧ dim2 y = 1 ∧ dim3 y = 1.
Proof.
  intros Hh Hw. unfold AdaptiveAvgPool2d_1x1.
  destruct (Nat.eqb_spec (dim2 x) 0); [lia|].
  destruct (Nat.eqb_spec (dim3 x) 0); [lia|].
  cbn [orb]. by eexists.
Qed.

Lemma Flatten_shape (x : Tensor4) :
  shape1 (Flatten x) = dim1 x * dim2 x * dim3 x ∧
  shape0 (tensor (Flatten x)) = dim0 x ∧
  Forall (fun row => length row = dim1 x * dim2 x * dim3 x) (rows (tensor (Flatten x))).
Proof.
  unfold Flatten, shape0. cbn [shape1 tensor rows].
  split; [done|]. split; [by rewrite length_map, length_seq|].
  apply Forall_fmap, Forall_forall. intros b _. cbn. by rewrite length_map, length_seq.
Qed.

Lemma div2_ge (n k : nat) : k ≤ n / 2 ↔ 2 * k ≤ n.
Proof.
  split; intros Hk.
  - pose proof (Nat.Div0.mul_div_le n 2). lia.
  - apply Nat.div_le_lower_bound; lia.
Qed.

(** The layout of the stack, spelled out. *)
Lemma stack_layout_init (net : SimpleCNN) :
  stack_layout net = stack_layout simple_cnn_init →
  conv_layout (conv_0 net) = (3, 16, 3, 1, 1) ∧
  conv_layout (conv_3 net) = (16, 32, 3, 1, 1) ∧
  conv_layout (conv_6 net) = (32, 64, 3, 1, 1).
Proof.
  unfold stack_layout, conv_layout. cbn.
  intros [= ? ? ? ? ? ? ? ? ? ? ? ? ? ? ?]. repeat split; congruence.
Qed.

(** The shapes the stack accepts, and what it returns on them. *)
Lemma simple_cnn_stack_shape (net : SimpleCNN) (x : Tensor4) :
  stack_layout net = stack_layout simple_cnn_init →
  (dim1 x = 3 ∧ 4 ≤ dim2 x ∧ 4 ≤ dim3 x →
   ∃ emb, simple_cnn_forward net x = Ok emb ∧
          shape1 emb = 64 ∧ shape0 (tensor emb) = dim0 x ∧
          Forall (fun row => length row = 64) (rows (tensor emb))) ∧
  (¬ (dim1 x = 3 ∧ 4 ≤ dim2 x ∧ 4 ≤ dim3 x) →
   ∃ msg, simple_cnn_forward net x = Raise (RuntimeError msg)).
Proof.
  intros (Hl0 & Hl3 & Hl6)%stack_layout_init.
  unfold conv_layout in Hl0, Hl3, Hl6.
  injection Hl0 as Hi0 Ho0 Hk0 Hs0 Hp0.
  injection Hl3 as Hi3 Ho3 Hk3 Hs3 Hp3.
  injection Hl6 as Hi6 Ho6 Hk6 Hs6 Hp6.
  unfold simple_cnn_forward.
  destruct (decide (dim1 x = 3 ∧ 1 ≤ dim2 x ∧ 1 ≤ dim3 x)) as [(Hc & Hh & Hw)|Hbad].
  2: { destruct (Conv2d_forward_refuses (conv_0 net) x Hk0 Hs0 Hp0) as [msg ->];
         [rewrite Hi0; lia|].
       split; [lia|]. intros _. by exists msg. }
  destruct (Conv2d_forward_3x3 (conv_0 net) x Hk0 Hs0 Hp0)
    as (y1 & -> & Hb1 & Hc1 & Hh1 & Hw1); [by rewrite Hi0 | done..|].
  cbn [mbind Result_bind]. rewrite Ho0 in Hc1.
  destruct (decide (2 ≤ dim2 x ∧ 2 ≤ dim3 x)) as [[Hh2 Hw2]|Hbad].
  2: { destruct (MaxPool2d_forward_refuses (ReLU4 y1)) as [msg ->];
         [cbn [ReLU4 tabulate4 dim2 dim3]; lia|].
       split; [lia|]. intros _. by exists msg. }
  destruct (MaxPool2d_forward_2 (ReLU4 y1)) as (y2 & -> & Hb2 & Hc2 & Hh2' & Hw2');
    [cbn [ReLU4 tabulate4 dim2 dim3]; lia..|].
  cbn [mbind Result_bind]. cbn [ReLU4 tabulate4 dim0 dim1 dim2 dim3] in Hb2, Hc2, Hh2', Hw2'.
  rewrite Hh1 in Hh2'. rewrite Hw1 in Hw2'.
  pose proof (div2_ge (dim2 x) 1) as Hd1. pose proof (div2_ge (dim3 x) 1) as Hd1'.
  pose proof (div2_ge (dim2 x) 2) as Hd2. pose proof (div2_ge (dim3 x) 2) as Hd2'.
  destruct (Conv2d_forward_3x3 (conv_3 net) y2 Hk3 Hs3 Hp3)
    as (y3 & -> & Hb3 & Hc3 & Hh3 & Hw3); [by rewrite Hi3, Hc2, Hc1 | lia..|].
  cbn [mbind Result_bind]. rewrite Ho3 in Hc3.
  destruct (decide (4 ≤ dim2 x ∧ 4 ≤ dim3 x)) as [[Hh4 Hw4]|Hbad].
  2: { destruct (MaxPool2d_forward_refuses (ReLU4 y3)) as [msg ->];
         [cbn [ReLU4 tabulate4 dim2 dim3]; lia|].
       split; [lia|]. intros _. by exists msg. }
  destruct (MaxPool2d_forward_2 (ReLU4 y3)) as (y4 & -> & Hb4 & Hc4 & Hh4' & Hw4');
    [cbn [ReLU4 tabulate4 dim2 dim3]; lia..|].
  cbn [mbind Result_bind]. cbn [ReLU4 tabulate4 dim0 dim1 dim2 dim3] in Hb4, Hc4, Hh4', Hw4'.
  pose proof (div2_ge (dim2 y3) 1) as Hd3. pose proof (div2_ge (dim3 y3) 1) as Hd3'.
  destruct (Conv2d_forward_3x3 (conv_6 net) y4 Hk6 Hs6 Hp6)
    as (y5 & -> & Hb5 & Hc5 & Hh5 & Hw5); [by rewrite Hi6, Hc4, Hc3 | lia..|].
  cbn [mbind Result_bind]. rewrite Ho6 in Hc5.
  destruct (AdaptiveAvgPool2d_1x1_ok (ReLU4 y5)) as (y6 & -> & Hb6 & Hc6 & Hh6 & Hw6);
    [cbn [ReLU4 tabulate4 dim2 dim3]; lia..|].
  cbn [mbind Result_bind]. cbn [ReLU4 tabulate4 dim0 dim1 dim2 dim3] in Hb6, Hc6.
  split; [|intros Hno; exfalso; apply Hno; done].
  intros _. exists (Flatten y6). split; [done|].
  destruct (Flatten_shape y6) as (Hwidth & Hbatch & Hrows).
  rewrite Hc6, Hc5, Hh6, Hw6 in Hwidth, Hrows. split; [done|]. split; [|done].
  rewrite Hbatch. lia.
Qed.

(** X10. The stack built for ['simple_cnn'], with any weights, accepts
    exactly the batches of 3-channel images of at least 4 rows and 4
    columns: on these it returns an embedding of width 64 with a row per
    image, and on every other shape it raises RuntimeError, from the
    first convolution (channels, or no row or column at all) or from one
    of the two poolings (fewer than 4 rows or columns). *)
Theorem simple_cnn_forward_shape (net : SimpleCNN) (x : Tensor4) :
  stack_layout net = stack_layout simple_cnn_init →
  (dim1 x = 3 ∧ 4 ≤ dim2 x ∧ 4 ≤ dim3 x →
   ∃ emb, simple_cnn_forward net x = Ok emb ∧
          shape1 emb = 64 ∧ shape0 (tensor emb) = dim0 x ∧
          Forall (fun row => length row = 64) (rows (tensor emb))) ∧
  (¬ (dim1 x = 3 ∧ 4 ≤ dim2 x ∧ 4 ≤ dim3 x) →
   ∃ msg, simple_cnn_forward net x = Raise (RuntimeError msg)).
Proof. apply simple_cnn_stack_shape. Qed.
End ConvFacts.

(** ** The stack handles the pictures of a batch one by one *)
Section ConvBatches.
Context `{ConvScalars}.

Lemma seq_from (n m : nat) : seq n m = map (Nat.add n) (seq 0 m).
Proof. pose proof (fmap_add_seq n 0 m) as E. rewrite Nat.add_0_r in E. done. Qed.

Lemma tabulate4_cat0 (B1 B2 C Ht Wd : nat) (f g1 g2 : nat → nat → nat → nat → float) :
  (∀ b c i j, b < B1 → f b c i j = g1 b c i j) →
  (∀ b c i j, f (B1 + b) c i j = g2 b c i j) →
  tabulate4 (B1 + B2) C Ht Wd f = cat0 (tabulate4 B1 C Ht Wd g1) (tabulate4 B2 C Ht Wd g2).
Proof.
  intros Hl Hr. unfold tabulate4, cat0. cbn. f_equal.
  rewrite seq_app, map_app. f_equal.
  - apply map_ext_in. intros b Hb%in_seq.
    do 3 (apply map_ext; intros ?). apply Hl. lia.
  - cbn. rewrite (seq_from B1 B2), map_map. do 4 (apply map_ext; intros ?). apply Hr.
Qed.

Lemma batch_ok_tabulate4 (B C Ht Wd : nat) f : batch_ok (tabulate4 B C Ht Wd f).
Proof. unfold batch_ok, tabulate4. cbn. by rewrite length_map, length_seq. Qed.

Lemma nth_cat0_l (x y : Tensor4) (b : nat) :
  batch_ok x → b < dim0 x → nth b (data4 (cat0 x y)) [] = nth b (data4 x) [].
Proof. unfold batch_ok. intros Hx Hb. cbn. apply app_nth1. lia. Qed.

Lemma nth_cat0_r (x y : Tensor4) (b : nat) :
  batch_ok x → nth (dim0 x + b) (data4 (cat0 x y)) [] = nth b (data4 y) [].
Proof. unfold batch_ok. intros <-. cbn. apply app_nth2_plus. Qed.

Lemma Conv2d_forward_cat0 (l : Conv2d) (x y x' y' : Tensor4) :
  batch_ok x → same_frame x y →
  Conv2d_forward l x = Ok x' → Conv2d_forward l y = Ok y' →
  Conv2d_forward l (cat0 x y) = Ok (cat0 x' y') ∧ batch_ok x' ∧ same_frame x' y'.
Proof.
  intros Hx (Hd1 & Hd2 & Hd3). unfold Conv2d_forward.
  rewrite Hd1, Hd2, Hd3. cbn [dim0 dim1 dim2 dim3 cat0].
  destruct (negb _); [done|]. destruct (stride l =? 0); [done|].
  destruct (_ || _); [done|]. intros [= <-] [= <-].
  split; [|split; [apply batch_ok_tabulate4|done]].
  f_equal. apply tabulate4_cat0.
  - intros b o i j Hb. unfold padded, at4. rewrite (nth_cat0_l x y b Hx Hb). done.
  - intros b o i j. unfold padded, at4. rewrite (nth_cat0_r x y b Hx).
    cbn [dim2 dim3 cat0]. by rewrite Hd2, Hd3.
Qed.

Lemma ReLU4_cat0 (x y : Tensor4) :
  batch_ok x → same_frame x y →
  ReLU4 (cat0 x y) = cat0 (ReLU4 x) (ReLU4 y) ∧ batch_ok (ReLU4 x) ∧
  same_frame (ReLU4 x) (ReLU4 y).
Proof.
  intros Hx (Hd1 & Hd2 & Hd3). unfold ReLU4.
  rewrite Hd1, Hd2, Hd3. cbn [dim0 dim1 dim2 dim3 cat0].
  split; [|split; [apply batch_ok_tabulate4|done]].
  apply tabulate4_cat0.
  - intros b o i j Hb. unfold at4. by rewrite (nth_cat0_l x y b Hx Hb).
  - intros b o i j. unfold at4. by rewrite (nth_cat0_r x y b Hx).
Qed.

Lemma MaxPool2d_forward_cat0 (k : nat) (x y x' y' : Tensor4) :
  batch_ok x → same_frame x y →
  MaxPool2d_forward k x = Ok x' → MaxPool2d_forward k y = Ok y' →
  MaxPool2d_forward k (cat0 x y) = Ok (cat0 x' y') ∧ batch_ok x' ∧ same_frame x' y'.
Proof.
  intros Hx (Hd1 & Hd2 & Hd3). unfold MaxPool2d_forward.
  rewrite Hd1, Hd2, Hd3. cbn [dim0 dim1 dim2 dim3 cat0].
  destruct (k =? 0); [done|]. destruct (_ || _); [done|]. intros [= <-] [= <-].
  split; [|split; [apply batch_ok_tabulate4|done]].
  f_equal. apply tabulate4_cat0.
  - intros b o i j Hb. unfold at4. by rewrite (nth_cat0_l x y b Hx Hb).
  - intros b o i j. unfold at4. by rewrite (nth_cat0_r x y b Hx).
Qed.

Lemma AdaptiveAvgPool2d_1x1_cat0 (x y x' y' : Tensor4) :
  batch_ok x → same_frame x y →
  AdaptiveAvgPool2d_1x1 x = Ok x' → AdaptiveAvgPool2d_1x1 y = Ok y' →
  AdaptiveAvgPool2d_1x1 (cat0 x y) = Ok (cat0 x' y') ∧ batch_ok x' ∧ same_frame x' y'.
Proof.
  intros Hx (Hd1 & Hd2 & Hd3). unfold AdaptiveAvgPool2d_1x1.
  rewrite Hd1, Hd2, Hd3. cbn [dim0 dim1 dim2 dim3 cat0].
  destruct (_ || _); [done|]. intros [= <-] [= <-].
  split; [|split; [apply batch_ok_tabulate4|done]].
  f_equal. apply tabulate4_cat0.
  - intros b o i j Hb. unfold at4. by rewrite (nth_cat0_l x y b Hx Hb).
  - intros b o i j. unfold at4. by rewrite (nth_cat0_r x y b Hx).
Qed.

Lemma Flatten_cat0 (x y : Tensor4) :
  batch_ok x → same_frame x y →
  shape1 (Flatten (cat0 x y)) = shape1 (Flatten x) ∧
  shape1 (Flatten y) = shape1 (Flatten x) ∧
  rows (tensor (Flatten (cat0 x y)))
    = rows (tensor (Flatten x)) ++ rows (tensor (Flatten y)).
Proof.
  intros Hx (Hd1 & Hd2 & Hd3). unfold Flatten.
  rewrite Hd1, Hd2, Hd3. cbn [dim0 dim1 dim2 dim3 cat0 shape1 tensor rows].
  split; [done|]. split; [done|].
  rewrite seq_app, map_app. f_equal.
  - apply map_ext_in. intros b Hb%in_seq.
    unfold at4. rewrite (nth_cat0_l x y b Hx) by lia. done.
  - change (seq (0 + ?n) ?m) with (seq n m).
    rewrite (seq_from (dim0 x) (dim0 y)), map_map. apply map_ext. intros b.
    unfold at4. by rewrite (nth_cat0_r x y b Hx).
Qed.

(** The stack on two batches put together, from the stack on each. *)
Lemma simple_cnn_stack_cat0 (net : SimpleCNN) (x y : Tensor4) (ex ey : DynTensor2) :
  batch_ok x → same_frame x y →
  simple_cnn_forward net x = Ok ex →
  simple_cnn_forward net y = Ok ey →
  ∃ e, simple_cnn_forward net (cat0 x y) = Ok e ∧
       shape1 e = shape1 ex ∧ shape1 ey = shape1 ex ∧
       rows (tensor e) = rows (tensor ex) ++ rows (tensor ey).
Proof.
  intros Hx Hf. unfold simple_cnn_forward.
  destruct (Conv2d_forward (conv_0 net) x) as [x1|] eqn:Hx1; [cbn [mbind Result_bind]|done].
  destruct (Conv2d_forward (conv_0 net) y) as [y1|] eqn:Hy1; [cbn [mbind Result_bind]|by intros _ ?].
  destruct (Conv2d_forward_cat0 _ _ _ _ _ Hx Hf Hx1 Hy1) as (-> & Hx1' & Hf1). cbn [mbind Result_bind].
  destruct (ReLU4_cat0 _ _ Hx1' Hf1) as (-> & Hx2' & Hf2).
  destruct (MaxPool2d_forward 2 (ReLU4 x1)) as [x3|] eqn:Hx3; [cbn [mbind Result_bind]|done].
  destruct (MaxPool2d_forward 2 (ReLU4 y1)) as [y3|] eqn:Hy3; [cbn [mbind Result_bind]|by intros _ ?].
  destruct (MaxPool2d_forward_cat0 _ _ _ _ _ Hx2' Hf2 Hx3 Hy3) as (-> & Hx3' & Hf3). cbn [mbind Result_bind].
  destruct (Conv2d_forward (conv_3 net) x3) as [x4|] eqn:Hx4; [cbn [mbind Result_bind]|done].
  destruct (Conv2d_forward (conv_3 net) y3) as [y4|] eqn:Hy4; [cbn [mbind Result_bind]|by intros _ ?].
  destruct (Conv2d_forward_cat0 _ _ _ _ _ Hx3' Hf3 Hx4 Hy4) as (-> & Hx4' & Hf4). cbn [mbind Result_bind].
  destruct (ReLU4_cat0 _ _ Hx4' Hf4) as (-> & Hx5' & Hf5).
  destruct (MaxPool2d_forward 2 (ReLU4 x4)) as [x6|] eqn:Hx6; [cbn [mbind Result_bind]|done].
  destruct (MaxPool2d_forward 2 (ReLU4 y4)) as [y6|] eqn:Hy6; [cbn [mbind Result_bind]|by intros _ ?].
  destruct (MaxPool2d_forward_cat0 _ _ _ _ _ Hx5' Hf5 Hx6 Hy6) as (-> & Hx6' & Hf6). cbn [mbind Result_bind].
  destruct (Conv2d_forward (conv_6 net) x6) as [x7|] eqn:Hx7; [cbn [mbind Result_bind]|done].
  destruct (Conv2d_forward (conv_6 net) y6) as [y7|] eqn:Hy7; [cbn [mbind Result_bind]|by intros _ ?].
  destruct (Conv2d_forward_cat0 _ _ _ _ _ Hx6' Hf6 Hx7 Hy7) as (-> & Hx7' & Hf7). cbn [mbind Result_bind].
  destruct (ReLU4_cat0 _ _ Hx7' Hf7) as (-> & Hx8' & Hf8).
  destruct (AdaptiveAvgPool2d_1x1 (ReLU4 x7)) as [x9|] eqn:Hx9; [cbn [mbind Result_bind]|done].
  destruct (AdaptiveAvgPool2d_1x1 (ReLU4 y7)) as [y9|] eqn:Hy9; [cbn [mbind Result_bind]|by intros _ ?].
  destruct (AdaptiveAvgPool2d_1x1_cat0 _ _ _ _ Hx8' Hf8 Hx9 Hy9) as (-> & Hx9' & Hf9). cbn [mbind Result_bind].
  intros [= <-] [= <-]. eexists. split; [done|].
  apply Flatten_cat0; done.
Qed.

(** X12. The stack handles the pictures of a batch one by one: for two
    batches of pictures of one shape that it accepts, it accepts the two
    put together, and returns the embeddings of the first followed by
    those of the second, whatever the kernels are. *)
Theorem simple_cnn_forward_batch_independent
    (net : SimpleCNN) (x y : Tensor4) (ex ey : DynTensor2) :
  batch_ok x → same_frame x y →
  simple_cnn_forward net x = Ok ex →
  simple_cnn_forward net y = Ok ey →
  ∃ e, simple_cnn_forward net (cat0 x y) = Ok e ∧
       shape1 e = shape1 ex ∧ shape1 ey = shape1 ex ∧
       rows (tensor e) = rows (tensor ex) ++ rows (tensor ey).
Proof. apply simple_cnn_stack_cat0. Qed.
End ConvBatches.

(** ** The model on the hand-written backbone *)
Section StackModel.
Context `{ConvScalars}.
Variables (channels height width : nat).
Variable Pretrained : Type.
Variables (resnet18_weights efficientnet_b0_weights : Pretrained).
Variable pretrained_apply :
  Pretrained → bool → list (list (list (list float))) → Result DynTensor2.

Abbreviation V :=
  (stack_vision channels height width Pretrained resnet18_weights
     efficientnet_b0_weights pretrained_apply).

(** X11. The model built for ['simple_cnn'] on its own stack, in either
    mode: on a batch of 3-channel images of at least 4 rows and 4 columns
    forward returns one scalar per image (with auxiliary parameters
    enabled, for auxiliary vectors of width 2 or 3 with a row per image);
    on images of any other shape it raises the RuntimeError of the stack
    whatever the auxiliary argument is, [None] included, since the
    backbone runs before the auxiliary argument is looked at. *)
Theorem simple_cnn_model_forward
    (use : bool) (m0 : @CNN _ V) (mode : bool) (x : list (@Image _ V)) :
  @CNN_init _ V "simple_cnn" use = Ok m0 →
  (channels = 3 ∧ 4 ≤ height ∧ 4 ≤ width →
   ∀ extra,
     use = false ∨
     (∃ e, extra = Some e ∧ (shape1 e = 2 ∨ shape1 e = 3) ∧ shape0 (tensor e) = length x) →
     ∃ out, @forward _ V (set_training mode m0) x extra = Ok out ∧
            length out = length x) ∧
  (¬ (channels = 3 ∧ 4 ≤ height ∧ 4 ≤ width) →
   ∀ extra, ∃ msg,
     @forward _ V (set_training mode m0) x extra = Raise (RuntimeError msg)).
Proof.
  intros Hinit.
  pose proof (CNN_init_Ok _ _ _ Hinit) as (fe & d & Hcase & Hm0).
  destruct Hcase as [(Hn & _)|[(Hn & _)|(_ & -> & ->)]]; [discriminate..|].
  pose proof (simple_cnn_stack_shape simple_cnn_init
                (mkTensor4 (length x) channels height width x) eq_refl)
    as [Hgood Hbad].
  cbn [dim0 dim1 dim2 dim3] in Hgood, Hbad. split.
  - intros Hshape extra Hextra.
    destruct (Hgood Hshape) as (emb & Hemb & Hd & Hn & _).
    destruct use.
    + destruct Hextra as [|(e & -> & Hw & Hrows)]; [done|].
      destruct (forward_enabled (set_training mode m0) x emb)
        as (_ & _ & Hok); [by subst m0..|].
      subst m0. destruct Hw as [Hw|Hw].
      * apply (Hok e (nn_Linear "param_fc_2.0" 2 16, nn_Linear "param_fc_2.2" 16 64));
          [left | | |]; done.
      * apply (Hok e (nn_Linear "param_fc_3.0" 3 16, nn_Linear "param_fc_3.2" 16 64));
          [right | | |]; done.
    + rewrite forward_disabled by (by subst m0).
      apply (forward_disabled_ok _ x emb); by subst m0.
  - intros Hshape extra. destruct (Hbad Hshape) as [msg Hmsg].
    exists msg. subst m0. unfold forward.
    destruct use; cbn; cbn in Hmsg; by rewrite Hmsg.
Qed.

(** X13. A model whose backbone is the hand-written stack, with any
    weights and in either mode, predicts for each sample apart: where
    forward accepts two batches with their auxiliary vectors, forward on
    the two put together returns the predictions of the first followed by
    those of the second. *)
Theorem simple_cnn_model_batch_independent
    (m : @CNN _ V) (net : SimpleCNN) (x1 x2 : list (@Image _ V)) (w : nat)
    (a1 a2 : Tensor2 w) (o1 o2 : list float) :
  feature_extractor m = inr net →
  @forward _ V m x1 (Some (mkDyn a1)) = Ok o1 →
  @forward _ V m x2 (Some (mkDyn a2)) = Ok o2 →
  @forward _ V m (x1 ++ x2) (Some (mkDyn (vstack a1 a2))) = Ok (o1 ++ o2).
Proof.
  intros Hnet Ho1 Ho2.
  destruct (backbone_apply (feature_extractor m) (training m) x1) as [[d t1]|] eqn:Hb1;
    [|by unfold forward in Ho1; rewrite Hb1 in Ho1].
  destruct (backbone_apply (feature_extractor m) (training m) x2) as [[d' t2]|] eqn:Hb2;
    [|by unfold forward in Ho2; rewrite Hb2 in Ho2].
  assert (Hb : ∃ e, backbone_apply (feature_extractor m) (training m) (x1 ++ x2) = Ok e ∧
                    shape1 e = d ∧ d' = d ∧ rows (tensor e) = rows t1 ++ rows t2).
  { rewrite Hnet in Hb1, Hb2 |- *. cbn in Hb1, Hb2 |- *. rewrite length_app.
    apply (simple_cnn_stack_cat0 net
             (mkTensor4 (length x1) channels height width x1)
             (mkTensor4 (length x2) channels height width x2) _ _
             eq_refl (conj eq_refl (conj eq_refl eq_refl)) Hb1 Hb2). }
  destruct Hb as ([d'' t] & Hb & Hd & Hd' & Hrows). cbn in Hd, Hrows. subst d'' d'.
  destruct t as [r], t1 as [r1], t2 as [r2]. cbn in Hrows. subst r.
  exact (forward_vstack m x1 x2 d w (mkTensor2 r1) (mkTensor2 r2) a1 a2 o1 o2
           Hb1 Hb2 Hb Ho1 Ho2).
Qed.

(** *** Training a model on the hand-written backbone *)
Context {learning : @Learning _ V}.

(** X4. [train] on a model whose backbone is the hand-written stack does
    not undo anything when a batch is refused, and the refused call
    leaves no trace, the stack keeping no running statistics: if the
    batches before it were accepted and the model they left, or the
    criterion on its outputs, raises on the next batch, [train] raises
    that error, the later batches are not run, and the model and the
    optimizer are as the steps on the earlier batches left them. *)
Theorem train_stops_at_refused_batch
    (model : @CNN _ V) (optimizer : @Optimizer _ V learning)
    (done : list (@Batch _ V)) (inputs : list (@Image _ V)) (labels : list float)
    (extra : DynTensor2) (rest : list (@Batch _ V)) (obs : list (float * nat))
    (s1 : @CNN _ V * @Optimizer _ V learning) (e : exn) (net : SimpleCNN) :
  @train_pass _ V learning (set_training true model, optimizer) done = Ok (obs, s1) →
  feature_extractor s1.1 = inr net →
  @forward _ V s1.1 inputs (Some extra) = Raise e ∨
  (∃ outputs, @forward _ V s1.1 inputs (Some extra) = Ok outputs ∧
              @criterion _ V learning outputs labels = Raise e) →
  @train _ V learning (done ++ (inputs, labels, extra) :: rest) (model, optimizer)
    = (Raise e, s1).
Proof.
  intros Hpass _ Hrefused. unfold train.
  rewrite run_get_bind, run_put_bind, run_bind.
  by rewrite (train_loop_refused _ _ _ _ _ _ _ _ _ _ _ Hpass Hrefused).
Qed.
End StackModel.

(** ** The further properties on sample data *)
Section Samples.
#[local] Existing Instance Exact.scalars.
#[local] Existing Instance Exact.vision.
#[local] Existing Instance Exact.learning.

Lemma test_first_missing_identifier_witness :
  Forall2 (fun b out => forward (set_training false Exact.model) b.1.1 (Some b.2) = Ok out ∧
                        length out = length b.1.2)
    Exact.test_loader_missing Exact.test_outputs ∧
  concat (map (fun b => b.1.2) Exact.test_loader_missing) = ["A"] ++ "C" :: [] ∧
  Forall (fun name => name ∈ map col_Image Exact.table) ["A"] ∧
  ("C" ∉ map col_Image Exact.table) ∧
  test Exact.table Exact.test_loader_missing "dep" (Exact.model, ∅)
    = (Raise (KeyError "C"), (set_training false Exact.model, ∅)).
Proof.
  assert (Houts : Forall2 (fun b out =>
              forward (set_training false Exact.model) b.1.1 (Some b.2) = Ok out ∧
              length out = length b.1.2)
            Exact.test_loader_missing Exact.test_outputs).
  { unfold Exact.test_loader_missing, Exact.test_outputs.
    constructor; [split; [by_evaluation | reflexivity]|]. constructor. }
  assert (Hnames : concat (map (fun b => b.1.2) Exact.test_loader_missing)
                   = ["A"] ++ "C" :: []) by reflexivity.
  assert (Hpresent : Forall (fun name => name ∈ map col_Image Exact.table) ["A"]).
  { constructor; [apply list_elem_of_here | constructor]. }
  assert (Habsent : "C" ∉ map col_Image Exact.table).
  { intros Hin. cbn in Hin.
    repeat (apply elem_of_cons in Hin as [Hin|Hin]; [discriminate|]).
    by apply elem_of_nil in Hin. }
  split; [exact Houts|]. split; [exact Hnames|]. split; [exact Hpresent|].
  split; [exact Habsent|].
  exact (test_first_missing_identifier Exact.table Exact.test_loader_missing "dep"
           Exact.model ∅ Exact.test_outputs ["A"] "C" [] Houts Hnames Hpresent Habsent).
Defined.

Lemma train_validate_no_samples_witness :
  dataset_size ExactEdges.hollow_loader = 0 ∧
  train_pass (set_training true Exact.model, 0) ExactEdges.hollow_loader
    = Ok (ExactEdges.hollow_losses, ExactEdges.hollow_end) ∧
  Forall2 (evaluated (set_training false Exact.model))
    ExactEdges.hollow_loader ExactEdges.hollow_results ∧
  train ExactEdges.hollow_loader (Exact.model, 0)
    = (Raise ZeroDivisionError, ExactEdges.hollow_end) ∧
  validate ExactEdges.hollow_loader Exact.model
    = (Raise ZeroDivisionError, set_training false Exact.model).
Proof.
  assert (Hsize : dataset_size ExactEdges.hollow_loader = 0) by reflexivity.
  assert (Hpass : train_pass (set_training true Exact.model, 0) ExactEdges.hollow_loader
                  = Ok (ExactEdges.hollow_losses, ExactEdges.hollow_end))
    by by_evaluation.
  assert (Hrs : Forall2 (evaluated (set_training false Exact.model))
                  ExactEdges.hollow_loader ExactEdges.hollow_results).
  { unfold ExactEdges.hollow_loader, ExactEdges.hollow_results.
    constructor; [split; by_evaluation|]. constructor. }
  split; [exact Hsize|]. split; [exact Hpass|]. split; [exact Hrs|].
  exact (train_validate_no_samples Exact.model 0 ExactEdges.hollow_loader
           ExactEdges.hollow_losses ExactEdges.hollow_end ExactEdges.hollow_results
           Hsize Hpass Hrs).
Defined.

Lemma validate_accepts_well_shaped_loader_witness :
  CNN_init "simple_cnn" true = Ok Exact.model ∧
  Forall (well_shaped Exact.model false) Exact.labelled_loader ∧
  Forall (fun b : Batch => ∀ outputs, length outputs = length b.1.1 →
                              ∃ loss, criterion outputs b.1.2 = Ok loss)
    Exact.labelled_loader ∧
  0 < dataset_size Exact.labelled_loader ∧
  (∀ outputs, length outputs = dataset_size Exact.labelled_loader →
              ∃ mae, mean_absolute_error
                       (concat (map (fun b => b.1.2) Exact.labelled_loader)) outputs
                     = Ok mae) ∧
  ∃ avg_loss mae,
    validate Exact.labelled_loader Exact.model
      = (Ok (avg_loss, mae), set_training false Exact.model).
Proof.
  assert (Hinit : CNN_init "simple_cnn" true = Ok Exact.model) by reflexivity.
  assert (Hshaped : Forall (well_shaped Exact.model false) Exact.labelled_loader).
  { unfold Exact.labelled_loader.
    constructor; [|constructor; [|constructor]].
    - split; [by eexists|]. split; [by left|done].
    - split; [by eexists|]. split; [by right|done]. }
  assert (Hcrit : Forall (fun b : Batch => ∀ outputs, length outputs = length b.1.1 →
                             ∃ loss, criterion outputs b.1.2 = Ok loss)
                    Exact.labelled_loader).
  { unfold Exact.labelled_loader.
    constructor; [|constructor; [|constructor]];
      intros outputs Hlen; cbn in Hlen |- *; unfold Exact.mse;
      rewrite Hlen; cbn; by eexists. }
  assert (Hsize : 0 < dataset_size Exact.labelled_loader) by (cbv; lia).
  assert (Hmae : ∀ outputs, length outputs = dataset_size Exact.labelled_loader →
              ∃ mae, mean_absolute_error
                       (concat (map (fun b => b.1.2) Exact.labelled_loader)) outputs
                     = Ok mae).
  { intros outputs Hlen. cbn in Hlen |- *. unfold Exact.mae.
    cbn [length]. rewrite Hlen. cbn. by eexists. }
  split; [exact Hinit|]. split; [exact Hshaped|]. split; [exact Hcrit|].
  split; [exact Hsize|]. split; [exact Hmae|].
  exact (validate_accepts_well_shaped_loader "simple_cnn" Exact.model
           Exact.labelled_loader Hinit Hshaped Hcrit Hsize Hmae).
Defined.

Lemma forward_batch_size_mismatch_witness :
  CNN_init "simple_cnn" true = Ok Exact.model ∧
  backbone_apply (feature_extractor Exact.model) false Exact.images
    = Ok (Exact.embed 64 Exact.images) ∧
  shape1 (Exact.embed 64 Exact.images) = in_features (reduce Exact.model) ∧
  shape0 (tensor (Exact.embed 64 Exact.images)) = length Exact.images ∧
  (shape1 (Exact.aux 3 2) = 2 ∨ shape1 (Exact.aux 3 2) = 3) ∧
  shape0 (tensor (Exact.aux 3 2)) ≠ length Exact.images ∧
  ∃ msg, forward (set_training false Exact.model) Exact.images (Some (Exact.aux 3 2))
         = Raise (RuntimeError msg).
Proof.
  split; [reflexivity|]. split; [reflexivity|]. split; [reflexivity|].
  split; [reflexivity|]. split; [by left|]. split; [discriminate|].
  apply (forward_batch_size_mismatch "simple_cnn" Exact.model false Exact.images
           (Exact.embed 64 Exact.images) (Exact.aux 3 2));
    [reflexivity | reflexivity | reflexivity | reflexivity | by left | discriminate].
Defined.

Lemma test_ignores_surplus_identifiers_witness :
  forward (set_training false Exact.model) Exact.images (Some (Exact.aux 2 2))
    = Ok ExactEdges.outputs ∧
  length ExactEdges.outputs ≤ length ["A"; "B"] ∧
  test Exact.table ([] ++ (Exact.images, ["A"; "B"] ++ ["C"], Exact.aux 2 2) :: [])
    "lon" (Exact.model, ∅)
    = test Exact.table ([] ++ (Exact.images, ["A"; "B"], Exact.aux 2 2) :: [])
        "lon" (Exact.model, ∅).
Proof.
  assert (Hout : forward (set_training false Exact.model) Exact.images
                   (Some (Exact.aux 2 2)) = Ok ExactEdges.outputs) by by_evaluation.
  assert (Hlen : length ExactEdges.outputs ≤ length ["A"; "B"]) by (cbv; lia).
  split; [exact Hout|]. split; [exact Hlen|].
  exact (test_ignores_surplus_identifiers Exact.table "lon" Exact.model ∅ [] []
           Exact.images ["A"; "B"] ["C"] (Exact.aux 2 2) ExactEdges.outputs Hout Hlen).
Defined.

Lemma forward_on_stacked_batches_witness :
  backbone_apply (feature_extractor Exact.model) (training Exact.model) ExactEdges.part1
    = Ok (mkDyn ExactEdges.emb1) ∧
  backbone_apply (feature_extractor Exact.model) (training Exact.model) ExactEdges.part2
    = Ok (mkDyn ExactEdges.emb2) ∧
  backbone_apply (feature_extractor Exact.model) (training Exact.model)
    (ExactEdges.part1 ++ ExactEdges.part2)
    = Ok (mkDyn (vstack ExactEdges.emb1 ExactEdges.emb2)) ∧
  forward Exact.model ExactEdges.part1 (Some (mkDyn ExactEdges.aux1)) = Ok ExactEdges.out1 ∧
  forward Exact.model ExactEdges.part2 (Some (mkDyn ExactEdges.aux2)) = Ok ExactEdges.out2 ∧
  forward Exact.model (ExactEdges.part1 ++ ExactEdges.part2)
    (Some (mkDyn (vstack ExactEdges.aux1 ExactEdges.aux2)))
    = Ok (ExactEdges.out1 ++ ExactEdges.out2).
Proof.
  assert (Ho1 : forward Exact.model ExactEdges.part1 (Some (mkDyn ExactEdges.aux1))
                = Ok ExactEdges.out1) by by_evaluation.
  assert (Ho2 : forward Exact.model ExactEdges.part2 (Some (mkDyn ExactEdges.aux2))
                = Ok ExactEdges.out2) by by_evaluation.
  split; [reflexivity|]. split; [reflexivity|]. split; [reflexivity|].
  split; [exact Ho1|]. split; [exact Ho2|].
  exact (forward_on_stacked_batches Exact.model ExactEdges.part1 ExactEdges.part2 64 2
           ExactEdges.emb1 ExactEdges.emb2 ExactEdges.aux1 ExactEdges.aux2
           ExactEdges.out1 ExactEdges.out2 eq_refl eq_refl eq_refl Ho1 Ho2).
Defined.

End Samples.

Section StackSamples.
#[local] Existing Instance Exact.scalars.
#[local] Existing Instance ExactStack.conv_scalars.
#[local] Existing Instance ExactStack.vision.
#[local] Existing Instance ExactStack.learning.

Lemma simple_cnn_forward_shape_witness :
  stack_layout ExactStack.trained = stack_layout simple_cnn_init ∧
  (dim1 ExactStack.pictures = 3 ∧ 4 ≤ dim2 ExactStack.pictures ∧
   4 ≤ dim3 ExactStack.pictures →
   ∃ emb, simple_cnn_forward ExactStack.trained ExactStack.pictures = Ok emb ∧
          shape1 emb = 64 ∧ shape0 (tensor emb) = dim0 ExactStack.pictures ∧
          Forall (fun row => length row = 64) (rows (tensor emb))) ∧
  (¬ (dim1 ExactStack.pictures = 3 ∧ 4 ≤ dim2 ExactStack.pictures ∧
      4 ≤ dim3 ExactStack.pictures) →
   ∃ msg, simple_cnn_forward ExactStack.trained ExactStack.pictures
          = Raise (RuntimeError msg)).
Proof.
  split; [reflexivity|].
  exact (simple_cnn_forward_shape ExactStack.trained ExactStack.pictures eq_refl).
Defined.

Lemma simple_cnn_model_forward_witness :
  @CNN_init _ ExactStack.vision "simple_cnn" true = Ok ExactStack.model ∧
  (3 = 3 ∧ 4 ≤ 4 ∧ 4 ≤ 4 →
   ∀ extra,
     true = false ∨
     (∃ e, extra = Some e ∧ (shape1 e = 2 ∨ shape1 e = 3) ∧
           shape0 (tensor e) = length (ExactStack.shots)) →
     ∃ out, @forward _ ExactStack.vision (set_training false ExactStack.model)
              (ExactStack.shots) extra = Ok out ∧
            length out = length (ExactStack.shots)) ∧
  (¬ (3 = 3 ∧ 4 ≤ 4 ∧ 4 ≤ 4) →
   ∀ extra, ∃ msg,
     @forward _ ExactStack.vision (set_training false ExactStack.model)
       (ExactStack.shots) extra = Raise (RuntimeError msg)).
Proof.
  split; [reflexivity|].
  exact (simple_cnn_model_forward 3 4 4 unit tt tt
           (fun _ _ _ => Raise (RuntimeError "pretrained weights are not available"))
           true ExactStack.model false (ExactStack.shots) eq_refl).
Defined.

Lemma simple_cnn_forward_batch_independent_witness :
  batch_ok ExactStack.pictures ∧
  same_frame ExactStack.pictures ExactStack.picture ∧
  simple_cnn_forward ExactStack.trained ExactStack.pictures = Ok ExactStack.pictures_emb ∧
  simple_cnn_forward ExactStack.trained ExactStack.picture = Ok ExactStack.picture_emb ∧
  ∃ e, simple_cnn_forward ExactStack.trained (cat0 ExactStack.pictures ExactStack.picture)
         = Ok e ∧
       shape1 e = shape1 ExactStack.pictures_emb ∧
       shape1 ExactStack.picture_emb = shape1 ExactStack.pictures_emb ∧
       rows (tensor e)
         = rows (tensor ExactStack.pictures_emb) ++ rows (tensor ExactStack.picture_emb).
Proof.
  assert (Hx : batch_ok ExactStack.pictures) by reflexivity.
  assert (Hf : same_frame ExactStack.pictures ExactStack.picture) by (by repeat split).
  assert (Hex : simple_cnn_forward ExactStack.trained ExactStack.pictures
                = Ok ExactStack.pictures_emb) by by_evaluation.
  assert (Hey : simple_cnn_forward ExactStack.trained ExactStack.picture
                = Ok ExactStack.picture_emb) by by_evaluation.
  split; [exact Hx|]. split; [exact Hf|]. split; [exact Hex|]. split; [exact Hey|].
  exact (simple_cnn_forward_batch_independent ExactStack.trained ExactStack.pictures
           ExactStack.picture ExactStack.pictures_emb ExactStack.picture_emb
           Hx Hf Hex Hey).
Defined.

Lemma simple_cnn_model_batch_independent_witness :
  feature_extractor ExactStack.model = inr simple_cnn_init ∧
  @forward _ ExactStack.vision ExactStack.model ExactStack.shots
    (Some (mkDyn ExactStack.shots_aux)) = Ok ExactStack.shots_out ∧
  @forward _ ExactStack.vision ExactStack.model ExactStack.shot
    (Some (mkDyn ExactStack.shot_aux)) = Ok ExactStack.shot_out ∧
  @forward _ ExactStack.vision ExactStack.model (ExactStack.shots ++ ExactStack.shot)
    (Some (mkDyn (vstack ExactStack.shots_aux ExactStack.shot_aux)))
    = Ok (ExactStack.shots_out ++ ExactStack.shot_out).
Proof.
  assert (Ho1 : @forward _ ExactStack.vision ExactStack.model ExactStack.shots
                  (Some (mkDyn ExactStack.shots_aux)) = Ok ExactStack.shots_out)
    by by_evaluation.
  assert (Ho2 : @forward _ ExactStack.vision ExactStack.model ExactStack.shot
                  (Some (mkDyn ExactStack.shot_aux)) = Ok ExactStack.shot_out)
    by by_evaluation.
  split; [reflexivity|]. split; [exact Ho1|]. split; [exact Ho2|].
  exact (simple_cnn_model_batch_independent 3 4 4 unit tt tt
           (fun _ _ _ => Raise (RuntimeError "pretrained weights are not available"))
           ExactStack.model simple_cnn_init ExactStack.shots ExactStack.shot 3
           ExactStack.shots_aux ExactStack.shot_aux
           ExactStack.shots_out ExactStack.shot_out eq_refl Ho1 Ho2).
Defined.

Lemma train_stops_at_refused_batch_witness :
  train_pass (set_training true ExactStack.model, 0) ExactStack.accepted
    = Ok (ExactStack.accepted_losses, ExactStack.accepted_end) ∧
  feature_extractor ExactStack.accepted_end.1 = inr simple_cnn_init ∧
  (forward ExactStack.accepted_end.1 ExactStack.shot (Some (Exact.aux 1 4))
     = Raise (ValueError "error - extra_params shape") ∨
   (∃ outputs,
      forward ExactStack.accepted_end.1 ExactStack.shot (Some (Exact.aux 1 4))
        = Ok outputs ∧
      criterion outputs [1%Q] = Raise (ValueError "error - extra_params shape"))) ∧
  train ExactStack.refused_loader (ExactStack.model, 0)
    = (Raise (ValueError "error - extra_params shape"), ExactStack.accepted_end).
Proof.
  assert (Hpass : train_pass (set_training true ExactStack.model, 0) ExactStack.accepted
                  = Ok (ExactStack.accepted_losses, ExactStack.accepted_end))
    by by_evaluation.
  assert (Hnet : feature_extractor ExactStack.accepted_end.1 = inr simple_cnn_init)
    by reflexivity.
  assert (Hrefused :
    forward ExactStack.accepted_end.1 ExactStack.shot (Some (Exact.aux 1 4))
      = Raise (ValueError "error - extra_params shape") ∨
    (∃ outputs,
       forward ExactStack.accepted_end.1 ExactStack.shot (Some (Exact.aux 1 4))
         = Ok outputs ∧
       criterion outputs [1%Q] = Raise (ValueError "error - extra_params shape")))
    by (left; by_evaluation).
  split; [exact Hpass|]. split; [exact Hnet|]. split; [exact Hrefused|].
  exact (train_stops_at_refused_batch 3 4 4 unit tt tt
           (fun _ _ _ => Raise (RuntimeError "pretrained weights are not available"))
           ExactStack.model 0 ExactStack.accepted
           ExactStack.shot [1%Q] (Exact.aux 1 4)
           [(ExactStack.shot, [2%Q], mkDyn ExactStack.shot_aux)]
           ExactStack.accepted_losses ExactStack.accepted_end
           (ValueError "error - extra_params shape") simple_cnn_init
           Hpass Hnet Hrefused).
Defined.
End StackSamples.
